(** * Shader picker of the I3D Blender add-on: descriptor parsing and state

    A shallow embedding of [addon/i3dio/ui/shader_picker.py].  The module
    reads a shader descriptor (an XML tree), derives parameter and texture
    specs bucketed by group, and fills the material's property collections
    for the active variation.

    Modelling choices, all visible in the definitions below:
    - Python [str] values are [string]s; [str.split()] splits on the ASCII
      characters for which [str.isspace] holds.
    - An [xml.etree] element is the inductive [Element]; [attrib] is a
      finite map from attribute names to values.
    - A Python exception is a value of [exn]; code that may raise returns
      a [result], and operators that mutate the host state run in the
      state-and-exception monad [M].
    - The host's property callbacks (the [get]/[set] functions attached to
      the properties of [I3DMaterialShader]) are not part of the model: a
      property write is a field store.
    - [xml_i3d.parse] lives outside this file; the operators take its
      outcome per path as an oracle. *)

From Stdlib Require Import Ascii String ZArith Lia.
From stdpp Require Import base option list strings gmap fin_maps.

Local Open Scope string_scope.
Local Open Scope Z_scope.
Local Open Scope list_scope.

Set Warnings "-register-all".

(** ** Python values and exceptions *)

Inductive exn : Type :=
  | KeyError (key : string)
  | NameError (variable : string)
  | AttributeError (attribute : string)
  | ValueError (literal : string)
  | IndexError (index : nat).

Inductive result (A : Type) : Type :=
  | Ok (a : A)
  | Raise (e : exn).
Arguments Ok {A} a.
Arguments Raise {A} e.

#[global] Instance result_ret : MRet result := @Ok.
#[global] Instance result_bind : MBind result :=
  fun A B f r => match r with Ok a => f a | Raise e => Raise e end.

(** [for x in xs: ys.append(f(x))], where [f] may raise. *)
Fixpoint for_each {A B : Type} (f : A -> result B) (xs : list A) : result (list B) :=
  match xs with
  | [] => Ok []
  | x :: xs' => y ← f x; ys ← for_each f xs'; Ok (y :: ys)
  end.

(** [str.isspace] on one ASCII character: TAB..CR, FS..US and the blank. *)
Definition is_space (c : ascii) : bool :=
  let n := nat_of_ascii c in
  ((9 <=? n)%nat && (n <=? 13)%nat) || ((28 <=? n)%nat && (n <=? 32)%nat).

(** [s.split()]: the maximal runs of non-blank characters of [s].  [cur]
    is the run being read. *)
Fixpoint split_from (cur : string) (s : string) : list string :=
  match s with
  | EmptyString => if decide (cur = "") then [] else [cur]
  | String c s' =>
      if is_space c
      then (if decide (cur = "") then split_from "" s' else cur :: split_from "" s')
      else split_from (cur +:+ String c "") s'
  end.

Definition py_split (s : string) : list string := split_from "" s.

(** [xs[:k]] for a Python integer [k]: a negative [k] counts from the end. *)
Definition py_slice_to {A : Type} (xs : list A) (k : Z) : list A :=
  if k <? 0 then take (Z.to_nat (Z.of_nat (length xs) + k)) xs
  else take (Z.to_nat k) xs.

(** [[x] * n] for a Python integer [n]: empty when [n] is not positive. *)
Definition py_list_mul {A : Type} (x : A) (n : Z) : list A := replicate (Z.to_nat n) x.

Definition py_len {A : Type} (xs : list A) : Z := Z.of_nat (length xs).

(** Update through a reference to the entry a collection's [add()] has
    just returned: the last one. *)
Fixpoint alter_last {A : Type} (f : A -> A) (xs : list A) : list A :=
  match xs with
  | [] => []
  | [x] => [f x]
  | x :: xs' => x :: alter_last f xs'
  end.

(** [xs[i]] for a natural index. *)
Definition py_index {A : Type} (xs : list A) (i : nat) : result A :=
  match xs !! i with
  | Some x => Ok x
  | None => Raise (IndexError i)
  end.

(** ** XML elements *)

Inductive Element : Type :=
  mkElement {
    tag : string;
    attrib : gmap string string;
    text : option string;
    children : list Element
  }.

(** [element.attrib[key]] *)
Definition getitem (e : Element) (key : string) : result string :=
  match attrib e !! key with
  | Some v => Ok v
  | None => Raise (KeyError key)
  end.

(** [element.attrib.get(key, default)] *)
Definition get_default (e : Element) (key default : string) : string :=
  match attrib e !! key with
  | Some v => v
  | None => default
  end.

(** [element.find(name)] for a plain tag name: the first child with that tag. *)
Definition find (e : Element) (name : string) : option Element :=
  list_find (fun c => tag c = name) (children e) ≫= (fun p => Some (snd p)).

(** ** Specs derived from the descriptor *)

(** The dictionaries built by [parameter_element_as_dict] and
    [texture_element_as_dict]. *)
Record ParameterSpec : Type :=
  mkParameterSpec {
    p_name : string;
    p_type : string;
    p_default_value : list string
  }.

Record TextureSpec : Type :=
  mkTextureSpec {
    t_name : string;
    t_default_file : string
  }.

#[global] Instance ParameterSpec_eq_dec : EqDecision ParameterSpec.
Proof. solve_decision. Defined.
#[global] Instance TextureSpec_eq_dec : EqDecision TextureSpec.
Proof. solve_decision. Defined.

(** The [if]/[elif] chain on [parameter.attrib['type']].  [None] is the
    state in which the local [type_length] was never assigned (the [else]
    branch only prints). *)
Definition type_length_of (ty : string) : option Z :=
  if decide (ty = "float") then Some 1
  else if decide (ty = "float2") then Some 2
  else if decide (ty = "float3") then Some 3
  else if decide (ty = "float4") then Some 4
  else None.

(** Reading the closure variable [type_length]. *)
Definition read_type_length (type_length : option Z) : result Z :=
  match type_length with
  | Some n => Ok n
  | None => Raise (NameError "type_length")
  end.

(** The nested function [parse_default]. *)
Definition parse_default (type_length : option Z) (default : option string)
  : result (list string) :=
  default_parsed ←
    match default with
    | Some d =>
        let default_parsed := py_split d in
        tl ← read_type_length type_length;
        if py_len default_parsed >? tl
        then Ok (py_slice_to default_parsed (tl - 1))
        else Ok default_parsed
    | None => Ok []
    end;
  tl ← read_type_length type_length;
  Ok (default_parsed ++ py_list_mul "0" (tl - py_len default_parsed)).

(** One iteration of [for child in parameter]. *)
Definition array_item (parameter : Element) (type_length : option Z) (child : Element)
  : result ParameterSpec :=
  name ← getitem parameter "name";
  index ← getitem child "index";
  ty ← getitem parameter "type";
  default_value ← parse_default type_length (text child);
  Ok (mkParameterSpec (name +:+ index) ty default_value).

(** [parameter_element_as_dict]: the list it returns or the exception it
    raises.  The line the unknown-type branch prints is not recorded. *)
Definition parameter_element_as_dict (parameter : Element) : result (list ParameterSpec) :=
  ty ← getitem parameter "type";
  let type_length := type_length_of ty in
  if decide (is_Some (attrib parameter !! "arraySize"))
  then for_each (array_item parameter type_length) (children parameter)
  else
    name ← getitem parameter "name";
    ty ← getitem parameter "type";
    default_value ← parse_default type_length (attrib parameter !! "defaultValue");
    Ok [mkParameterSpec name ty default_value].

Definition texture_element_as_dict (texture : Element) : result TextureSpec :=
  name ← getitem texture "name";
  Ok (mkTextureSpec name (get_default texture "defaultFilename" "")).

(** ** Grouping (the two scanning loops of [I3DLoadCustomShaderVariation.execute]) *)

(** [element.attrib.get('group', 'mandatory')] *)
Definition group_of (e : Element) : string := get_default e "group" "mandatory".

(** [grouped.setdefault(group_name, []).extend(specs)] *)
Definition extend_group {A : Type} (grouped : gmap string (list A)) (group_name : string)
    (specs : list A) : gmap string (list A) :=
  <[group_name := default [] (grouped !! group_name) ++ specs]> grouped.

(** [for parameter in parameters: ...] *)
Fixpoint scan_parameters (grouped : gmap string (list ParameterSpec))
    (parameters : list Element) : result (gmap string (list ParameterSpec)) :=
  match parameters with
  | [] => Ok grouped
  | parameter :: rest =>
      let group_name := group_of parameter in
      specs ← parameter_element_as_dict parameter;
      scan_parameters (extend_group grouped group_name specs) rest
  end.

(** [texture.attrib.get('defaultColorProfile') is not None] *)
Definition has_color_profile (texture : Element) : bool :=
  bool_decide (is_Some (attrib texture !! "defaultColorProfile")).

(** [for texture in textures: ...] *)
Fixpoint scan_textures (grouped : gmap string (list TextureSpec))
    (textures : list Element) : result (gmap string (list TextureSpec)) :=
  match textures with
  | [] => Ok grouped
  | texture :: rest =>
      if has_color_profile texture
      then
        let group_name := group_of texture in
        spec ← texture_element_as_dict texture;
        scan_textures (extend_group grouped group_name [spec]) rest
      else scan_textures grouped rest
  end.

Definition grouped_parameters (root : Element) : result (gmap string (list ParameterSpec)) :=
  match find root "Parameters" with
  | Some parameters => scan_parameters ∅ (children parameters)
  | None => Ok ∅
  end.

Definition grouped_textures (root : Element) : result (gmap string (list TextureSpec)) :=
  match find root "Textures" with
  | Some textures => scan_textures ∅ (children textures)
  | None => Ok ∅
  end.

(** ** Module constants *)

Definition shader_default : string := "None".
Definition shader_custom : string := "Custom".
Definition custom_shader_default : string := "".
Definition shader_no_variation : string := "None".

(** [variations.find(f"./Variation[@name='{name}']")]: the first child
    tagged [Variation] whose [name] attribute is [name].  The path embeds
    [name] between apostrophes, so this reading holds for names without an
    apostrophe ([quote_free]). *)
Definition find_variation (variations : Element) (name : string) : option Element :=
  list_find (fun c => tag c = "Variation" ∧ attrib c !! "name" = Some name)
            (children variations) ≫= (fun p => Some (snd p)).

Fixpoint quote_free (s : string) : bool :=
  match s with
  | EmptyString => true
  | String c s' => negb (Ascii.eqb c "'"%char) && quote_free s'
  end.

(** Lines 245-250: the groups activated by the current variation. *)
Definition parameter_groups (root : Element) (variation : string) : result (list string) :=
  if decide (variation ≠ shader_no_variation)
  then
    match find root "Variations" with
    | None => Raise (AttributeError "find")
    | Some variations =>
        match find_variation variations variation with
        | None => Raise (AttributeError "attrib")
        | Some v => Ok (["mandatory"] ++ py_split (get_default v "groups" ""))
        end
    end
  else Ok ["mandatory"; "base"].

(** ** The shader-name cache *)

Module ShaderCache.

Definition item : Type := string * string * string.

Definition STATIC_ITEMS : list item :=
  [ (shader_default, "Select a shader", "Select a shader");
    (shader_custom, "Load Custom Shader", "Load a custom shader") ].

(** What a query can see of the file system: the preference
    [fs_data_path], and the stems of the [*.xml] files of its [shaders]
    directory ([None] when the directory does not exist). *)
Record Disk : Type :=
  mkDisk {
    fs_data_path : string;
    shader_dir : option (list string)
  }.

Inductive fs_access : Type := Exists | Glob.

(** The module global [SHADER_CACHE] together with a log of the file
    system accesses made so far. *)
Record Session : Type :=
  mkSession {
    SHADER_CACHE : option (list item);
    fs_log : list fs_access
  }.

(** Truth value of [SHADER_CACHE]: [None] and [[]] are false. *)
Definition truthy (cache : option (list item)) : bool :=
  match cache with
  | Some (_ :: _) => true
  | _ => false
  end.

Definition no_shaders : list item :=
  [ ("No shaders found", "No shaders found", "No shaders found") ].

Definition shader_items_update (disk : Disk) (s : Session) : list item * Session :=
  if truthy (SHADER_CACHE s)
  then (STATIC_ITEMS ++ default [] (SHADER_CACHE s), s)
  else if decide (fs_data_path disk = "")
  then (no_shaders, s)
  else
    let s1 := mkSession (SHADER_CACHE s) (fs_log s ++ [Exists]) in
    match shader_dir disk with
    | None => (no_shaders, s1)
    | Some shader_files =>
        let cache := map (fun shader => (shader, shader, "Shader")) shader_files in
        (STATIC_ITEMS ++ cache, mkSession (Some cache) (fs_log s1 ++ [Glob]))
    end.

(** A session of queries, each seeing the disk as it is at that time. *)
Fixpoint queries (disks : list Disk) (s : Session) : list (list item) * Session :=
  match disks with
  | [] => ([], s)
  | d :: rest =>
      let '(items, s1) := shader_items_update d s in
      let '(more, s2) := queries rest s1 in
      (items :: more, s2)
  end.

(** Sample disks. *)
Definition two_shaders : Disk := mkDisk "/fs" (Some ["vehicleShader"; "tileShader"]).

Definition moved_away : Disk := mkDisk "/fs" None.

(** The session reached by the first query on [two_shaders]. *)
Definition warm : Session := snd (shader_items_update two_shaders (mkSession None [])).

End ShaderCache.

(** ** Host state: materials, context, output *)

Inductive OperatorResult : Type := FINISHED | CANCELLED.

Section Host.

(** Python floats are kept abstract: [F] with the conversion [float(s)]
    ([None] when Python raises [ValueError]) and the value [0.0]. *)
Context {F : Type} (py_float : string -> option F) (zero : F).

(** Outcome of [xml_i3d.parse(bpy.path.abspath(path))]: the root of the
    tree, or [None]. *)
Context (xml_parse : string -> option Element).

Record I3DShaderParameter : Type :=
  mkShaderParameter {
    sp_name : string;
    sp_type : string;
    data_float_1 : F;
    data_float_2 : list F;
    data_float_3 : list F;
    data_float_4 : list F
  }.

Record I3DShaderTexture : Type :=
  mkShaderTexture {
    st_name : string;
    source : string;
    default_source : string
  }.

(** The property group [I3DMaterialShader] ([i3d_attributes] of a
    material).  A variation entry holds only its name. *)
Record I3DMaterialShader : Type :=
  mkMaterialShader {
    shader : string;
    custom_shader : string;
    variation : string;
    variations : list string;
    shader_parameters : list I3DShaderParameter;
    shader_textures : list I3DShaderTexture
  }.

(** [bpy.data.materials] by name; [context.object] and its
    [active_material] (a name in [materials]); the add-on preference
    [fs_data_path]; what was printed and reported. *)
Record World : Type :=
  mkWorld {
    materials : gmap string I3DMaterialShader;
    context_object : option (option string);
    data_path : string;
    stdout : list string;
    reports : list (string * string)
  }.

Definition set_materials (ms : gmap string I3DMaterialShader) (w : World) : World :=
  mkWorld ms (context_object w) (data_path w) (stdout w) (reports w).

Definition set_shader (v : string) (a : I3DMaterialShader) : I3DMaterialShader :=
  mkMaterialShader v (custom_shader a) (variation a) (variations a)
                   (shader_parameters a) (shader_textures a).
Definition set_custom_shader (v : string) (a : I3DMaterialShader) : I3DMaterialShader :=
  mkMaterialShader (shader a) v (variation a) (variations a)
                   (shader_parameters a) (shader_textures a).
Definition set_variation (v : string) (a : I3DMaterialShader) : I3DMaterialShader :=
  mkMaterialShader (shader a) (custom_shader a) v (variations a)
                   (shader_parameters a) (shader_textures a).
Definition set_variations (v : list string) (a : I3DMaterialShader) : I3DMaterialShader :=
  mkMaterialShader (shader a) (custom_shader a) (variation a) v
                   (shader_parameters a) (shader_textures a).
Definition set_shader_parameters (v : list I3DShaderParameter) (a : I3DMaterialShader)
  : I3DMaterialShader :=
  mkMaterialShader (shader a) (custom_shader a) (variation a) (variations a)
                   v (shader_textures a).
Definition set_shader_textures (v : list I3DShaderTexture) (a : I3DMaterialShader)
  : I3DMaterialShader :=
  mkMaterialShader (shader a) (custom_shader a) (variation a) (variations a)
                   (shader_parameters a) v.

(** *** Two layers of stateful code

    [A_ X] acts on one [I3DMaterialShader] (the local [attributes]);
    [M X] acts on the whole [World].  Both may raise; the state reached
    when the exception is raised is kept. *)
Definition A_ (X : Type) : Type := I3DMaterialShader -> result X * I3DMaterialShader.
Definition M (X : Type) : Type := World -> result X * World.

Definition a_ret {X} (x : X) : A_ X := fun a => (Ok x, a).
Definition a_bind {X Y} (c : A_ X) (k : X -> A_ Y) : A_ Y :=
  fun a => match c a with
           | (Ok x, a1) => k x a1
           | (Raise e, a1) => (Raise e, a1)
           end.
Definition a_lift {X} (r : result X) : A_ X := fun a => (r, a).
Definition a_modify (f : I3DMaterialShader -> I3DMaterialShader) : A_ unit :=
  fun a => (Ok tt, f a).
Definition a_read {X} (proj : I3DMaterialShader -> X) : A_ X := fun a => (Ok (proj a), a).

Definition m_ret {X} (x : X) : M X := fun w => (Ok x, w).
Definition m_bind {X Y} (c : M X) (k : X -> M Y) : M Y :=
  fun w => match c w with
           | (Ok x, w1) => k x w1
           | (Raise e, w1) => (Raise e, w1)
           end.
Definition m_raise {X} (e : exn) : M X := fun w => (Raise e, w).

(** Run attribute-level code on the material named [ref].  The host keeps
    every referenced material in [bpy.data.materials]; a dangling name is
    outside that invariant and reads as a [KeyError]. *)
Definition on {X} (ref : string) (c : A_ X) : M X :=
  fun w => match materials w !! ref with
           | Some a => let '(r, a1) := c a in (r, set_materials (<[ref := a1]> (materials w)) w)
           | None => (Raise (KeyError ref), w)
           end.

Definition print (line : string) : M unit :=
  fun w => (Ok tt, mkWorld (materials w) (context_object w) (data_path w)
                           (stdout w ++ [line]) (reports w)).

Definition report (level message : string) : M unit :=
  fun w => (Ok tt, mkWorld (materials w) (context_object w) (data_path w)
                           (stdout w) (reports w ++ [(level, message)])).

#[local] Instance A_ret : MRet A_ := @a_ret.
#[local] Instance A_bind : MBind A_ := fun X Y k c => a_bind c k.
#[local] Instance M_ret : MRet M := @m_ret.
#[local] Instance M_bind : MBind M := fun X Y k c => m_bind c k.

(** *** [clear_shader] *)

(** [context.object.active_material.i3d_attributes] *)
Definition active_attributes : M string :=
  fun w => match context_object w with
           | None => (Raise (AttributeError "active_material"), w)
           | Some None => (Raise (AttributeError "i3d_attributes"), w)
           | Some (Some material) => (Ok material, w)
           end.

Definition clear_attributes : A_ unit :=
  sh ← a_read shader;
  _ ← (if decide (sh = shader_custom) then a_ret tt
       else a_modify (set_shader shader_default));
  _ ← a_modify (set_custom_shader custom_shader_default);
  _ ← a_modify (set_variations []);
  _ ← a_modify (set_shader_parameters []);
  _ ← a_modify (set_shader_textures []);
  sh ← a_read shader;
  if decide (sh ∈ [shader_custom; shader_default]) then a_ret tt
  else a_modify (set_variation shader_no_variation).

Definition clear_shader : M unit :=
  attributes ← active_attributes;
  on attributes clear_attributes.

(** *** Shared prologue of both operators *)

(** Truth value of [context.object and context.object.active_material]. *)
Definition active_material (w : World) : option string :=
  match context_object w with
  | Some (Some material) => Some material
  | _ => None
  end.

(** The path handed to [xml_i3d.parse]; [Path] normalisation and
    [bpy.path.abspath] are left to the oracle [xml_parse], so the string
    stands for the path and is not its rendering by [str(Path(...))]. *)
Definition shader_path (data_path : string) (a : I3DMaterialShader) : string :=
  if decide (custom_shader a ≠ custom_shader_default)
  then custom_shader a
  else data_path +:+ "/shaders/" +:+ shader a +:+ ".xml".

(** *** [I3DLoadCustomShader.execute] *)

(** [for variation in variations: ...]; a fresh entry is named ['Error']
    until its name is assigned. *)
Fixpoint add_variations (vs : list Element) : A_ unit :=
  match vs with
  | [] => a_ret tt
  | v :: rest =>
      _ ← a_modify (fun a => set_variations (variations a ++ ["Error"]) a);
      name ← a_lift (getitem v "name");
      _ ← a_modify (fun a => set_variations (alter_last (fun _ => name) (variations a)) a);
      add_variations rest
  end.

(** Lines 120-130.  The write to [variation] at line 123 is modelled as
    the store alone.  The property's setter also runs the variation
    operator when the owner is the active material and the stored value
    changes; that nested run is not part of this definition, which is
    exact for a material that is not the active one. *)
Definition load_variations (root : Element) : A_ unit :=
  _ ← a_modify (set_variations []);
  _ ← a_modify (fun a => set_variations (variations a ++ [shader_no_variation]) a);
  _ ← a_modify (set_variation shader_no_variation);
  match find root "Variations" with
  | Some variations => add_variations (children variations)
  | None => a_ret tt
  end.

Definition load_custom_shader_body (attributes : string) : M OperatorResult :=
  path ← (fun w => on attributes (a_read (shader_path (data_path w))) w);
  file ← on attributes (a_read shader);
  _ ← match xml_parse path with
      | None =>
          _ ← print (file +:+ " is not correct xml");
          clear_shader
      | Some root =>
          if decide (tag root ≠ "CustomShader")
          then
            _ ← print (file +:+ " is xml, but not a properly formatted shader file! Aborting");
            clear_shader
          else on attributes (load_variations root)
      end;
  m_ret FINISHED.

Definition load_custom_shader (material_name : string) : M OperatorResult :=
  fun w =>
    if decide (material_name ≠ "")
    then
      if decide (is_Some (materials w !! material_name))
      then load_custom_shader_body material_name w
      else (_ ← report "ERROR" ("Material '" +:+ material_name +:+ "' not found.");
            m_ret CANCELLED) w
    else
      match active_material w with
      | None => (_ ← report "ERROR" "No active object with an active material found.";
                 m_ret CANCELLED) w
      | Some material => load_custom_shader_body material w
      end.

(** *** [I3DLoadCustomShaderVariation.execute] *)

(** [tuple(map(float, default_value))] *)
Definition floats (tokens : list string) : result (list F) :=
  for_each (fun s => match py_float s with
                     | Some x => Ok x
                     | None => Raise (ValueError s)
                     end) tokens.

(** A fresh entry of [shader_parameters] and of [shader_textures], with
    the defaults of the property declarations. *)
Definition new_parameter : I3DShaderParameter :=
  mkShaderParameter "Unnamed Attribute" "float" zero
                    (replicate 2 zero) (replicate 3 zero) (replicate 4 zero).
Definition new_texture : I3DShaderTexture := mkShaderTexture "Unnamed Texture" "" "".

Definition set_sp_name (v : string) (p : I3DShaderParameter) : I3DShaderParameter :=
  mkShaderParameter v (sp_type p) (data_float_1 p) (data_float_2 p)
                    (data_float_3 p) (data_float_4 p).
Definition set_sp_type (v : string) (p : I3DShaderParameter) : I3DShaderParameter :=
  mkShaderParameter (sp_name p) v (data_float_1 p) (data_float_2 p)
                    (data_float_3 p) (data_float_4 p).
Definition set_data_float_1 (v : F) (p : I3DShaderParameter) : I3DShaderParameter :=
  mkShaderParameter (sp_name p) (sp_type p) v (data_float_2 p)
                    (data_float_3 p) (data_float_4 p).
Definition set_data_float_2 (v : list F) (p : I3DShaderParameter) : I3DShaderParameter :=
  mkShaderParameter (sp_name p) (sp_type p) (data_float_1 p) v
                    (data_float_3 p) (data_float_4 p).
Definition set_data_float_3 (v : list F) (p : I3DShaderParameter) : I3DShaderParameter :=
  mkShaderParameter (sp_name p) (sp_type p) (data_float_1 p) (data_float_2 p)
                    v (data_float_4 p).
Definition set_data_float_4 (v : list F) (p : I3DShaderParameter) : I3DShaderParameter :=
  mkShaderParameter (sp_name p) (sp_type p) (data_float_1 p) (data_float_2 p)
                    (data_float_3 p) v.

(** Write through [param], the entry returned by the last [add()]. *)
Definition param_set (f : I3DShaderParameter -> I3DShaderParameter) : A_ unit :=
  a_modify (fun a => set_shader_parameters (alter_last f (shader_parameters a)) a).
Definition tex_set (f : I3DShaderTexture -> I3DShaderTexture) : A_ unit :=
  a_modify (fun a => set_shader_textures (alter_last f (shader_textures a)) a).

(** Body of [for parameter in grouped_parameters[group]]. *)
Definition add_parameter (parameter : ParameterSpec) : A_ unit :=
  _ ← a_modify (fun a => set_shader_parameters (shader_parameters a ++ [new_parameter]) a);
  _ ← param_set (set_sp_name (p_name parameter));
  _ ← param_set (set_sp_type (p_type parameter));
  data ← a_lift (floats (p_default_value parameter));
  if decide (p_type parameter = "float")
  then d0 ← a_lift (py_index data 0); param_set (set_data_float_1 d0)
  else if decide (p_type parameter = "float2") then param_set (set_data_float_2 data)
  else if decide (p_type parameter = "float3") then param_set (set_data_float_3 data)
  else if decide (p_type parameter = "float4") then param_set (set_data_float_4 data)
  else a_ret tt.

(** Body of [for texture in grouped_textures[group]]. *)
Definition add_texture (texture : TextureSpec) : A_ unit :=
  _ ← a_modify (fun a => set_shader_textures (shader_textures a ++ [new_texture]) a);
  _ ← tex_set (fun t => mkShaderTexture (t_name texture) (source t) (default_source t));
  _ ← tex_set (fun t => mkShaderTexture (st_name t) (t_default_file texture) (default_source t));
  tex_set (fun t => mkShaderTexture (st_name t) (source t) (t_default_file texture)).

Fixpoint for_ {X : Type} (body : X -> A_ unit) (xs : list X) : A_ unit :=
  match xs with
  | [] => a_ret tt
  | x :: rest => _ ← body x; for_ body rest
  end.

(** Body of [for group in parameter_groups]. *)
Definition add_group (gp : gmap string (list ParameterSpec))
    (gt : gmap string (list TextureSpec)) (group : string) : A_ unit :=
  _ ← match gp !! group with
      | Some parameter_group => for_ add_parameter parameter_group
      | None => a_ret tt
      end;
  match gt !! group with
  | Some texture_group => for_ add_texture texture_group
  | None => a_ret tt
  end.

Definition load_variation (root : Element) : A_ unit :=
  _ ← a_modify (set_shader_parameters []);
  _ ← a_modify (set_shader_textures []);
  gp ← a_lift (grouped_parameters root);
  gt ← a_lift (grouped_textures root);
  current ← a_read variation;
  groups ← a_lift (parameter_groups root current);
  for_ (add_group gp gt) groups.

Definition load_custom_shader_variation_body (attributes : string) : M OperatorResult :=
  path ← (fun w => on attributes (a_read (shader_path (data_path w))) w);
  _ ← match xml_parse path with
      | None =>
          _ ← print (path +:+ " doesn't exist!");
          clear_shader
      | Some root => on attributes (load_variation root)
      end;
  m_ret FINISHED.

Definition load_custom_shader_variation (material_name : string) : M OperatorResult :=
  fun w =>
    if decide (material_name ≠ "")
    then
      if decide (is_Some (materials w !! material_name))
      then load_custom_shader_variation_body material_name w
      else (_ ← report "ERROR" ("Material '" +:+ material_name +:+ "' not found.");
            m_ret CANCELLED) w
    else
      match active_material w with
      | None => (Ok FINISHED, w)
      | Some material => load_custom_shader_variation_body material w
      end.

(** *** What the operators are expected to leave

    Pure descriptions of the states and entries the operators produce,
    used to state their properties. *)

(** The state [clear_attributes] leaves. *)
Definition cleared (a : I3DMaterialShader) : I3DMaterialShader :=
  mkMaterialShader (if decide (shader a = shader_custom) then shader a else shader_default)
                   custom_shader_default (variation a) [] [] [].

(** The material that [execute] works on, when it gets past its
    prologue. *)
Definition acts_on (material_name : string) (w : World) (m : string) : Prop :=
  (material_name <> "" /\ material_name = m /\ is_Some (materials w !! m)) \/
  (material_name = "" /\ active_material w = Some m).



(** The entry [add_parameter] leaves in [shader_parameters] when nothing
    raises. *)
Definition parameter_entry (spec : ParameterSpec) : result I3DShaderParameter :=
  let fresh := set_sp_type (p_type spec) (set_sp_name (p_name spec) new_parameter) in
  data ← floats (p_default_value spec);
  if decide (p_type spec = "float")
  then d0 ← py_index data 0; Ok (set_data_float_1 d0 fresh)
  else if decide (p_type spec = "float2") then Ok (set_data_float_2 data fresh)
  else if decide (p_type spec = "float3") then Ok (set_data_float_3 data fresh)
  else if decide (p_type spec = "float4") then Ok (set_data_float_4 data fresh)
  else Ok fresh.

(** The entry [add_texture] leaves in [shader_textures]. *)
Definition texture_entry (spec : TextureSpec) : I3DShaderTexture :=
  mkShaderTexture (t_name spec) (t_default_file spec) (t_default_file spec).

Definition push_parameters (ps : list I3DShaderParameter) (a : I3DMaterialShader) : I3DMaterialShader :=
  set_shader_parameters (shader_parameters a ++ ps) a.

Definition push_textures (ts : list I3DShaderTexture) (a : I3DMaterialShader) : I3DMaterialShader :=
  set_shader_textures (shader_textures a ++ ts) a.

(** The specs of the activated groups, in the order the groups are listed. *)
Definition selected {A : Type} (grouped : gmap string (list A)) (groups : list string)
  : list A :=
  flat_map (fun g => default [] (grouped !! g)) groups.

(** The state [load_variation] starts filling from. *)
Definition emptied (a : I3DMaterialShader) : I3DMaterialShader :=
  set_shader_textures [] (set_shader_parameters [] a).

End Host.

(** ** Specification-side definitions *)

(** The arity the data model attaches to each parameter type. *)
Definition declared_arity : list (string * Z) :=
  [("float", 1); ("float2", 2); ("float3", 3); ("float4", 4)].

(** The whitespace-separated tokens of a default attribute; none when the
    attribute is absent. *)
Definition tokens_of (default : option string) : list string :=
  match default with
  | Some d => py_split d
  | None => []
  end.

(** The specs an entry contributes (none when parsing it raises). *)
Definition specs_of (parameter : Element) : list ParameterSpec :=
  match parameter_element_as_dict parameter with
  | Ok specs => specs
  | Raise _ => []
  end.

Definition texture_specs_of (texture : Element) : list TextureSpec :=
  match texture_element_as_dict texture with
  | Ok spec => [spec]
  | Raise _ => []
  end.

(** The children of the listing element [listing] of [root]. *)
Definition entries (root : Element) (listing : string) : list Element :=
  match find root listing with
  | Some l => children l
  | None => []
  end.

(** The specs of the entries bucketed into [g], in declaration order. *)
Definition parameters_in_group (g : string) (es : list Element) : list ParameterSpec :=
  flat_map specs_of (filter (fun e => group_of e = g) es).

Definition textures_in_group (g : string) (es : list Element) : list TextureSpec :=
  flat_map texture_specs_of
           (filter (fun e => has_color_profile e = true /\ group_of e = g) es).


(** ** Sample inputs *)

(** An element whose attributes are given as a list of pairs. *)
Definition node (t : string) (a : list (string * string)) (tx : option string)
    (cs : list Element) : Element :=
  mkElement t (list_to_map a) tx cs.

(** The scalar entry of the spec's example: type [float], default
    ["1 2 3 4"]. *)
Definition scalar_four_tokens : Element :=
  mkElement "Parameter"
    (list_to_map [("name", "p"); ("type", "float"); ("defaultValue", "1 2 3 4")])
    None [].

(** A [float3] entry that carries no default attribute. *)
Definition vector3_no_default : Element :=
  mkElement "Parameter" (list_to_map [("name", "scale"); ("type", "float3")]) None [].

(** An array parameter with three indexed children. *)
Definition array_of_three : Element :=
  mkElement "Parameter"
    (list_to_map [("name", "lightIds"); ("type", "float4"); ("arraySize", "3")])
    None
    [ mkElement "Default" (list_to_map [("index", "0")]) (Some "1 0 0 0") [];
      mkElement "Default" (list_to_map [("index", "1")]) (Some "2 0") [];
      mkElement "Default" (list_to_map [("index", "2")]) None [] ].

Definition unknown_type_entry : Element :=
  mkElement "Parameter"
    (list_to_map [("name", "tint"); ("type", "float5"); ("defaultValue", "1 1 1 1")])
    None [].

(** A descriptor with parameters and textures in three groups and two
    variations. *)
Definition sample_descriptor : Element :=
  node "CustomShader" [] None
    [ node "Parameters" [] None
        [ node "Parameter" [("name", "alpha"); ("type", "float"); ("defaultValue", "1")] None [];
          node "Parameter" [("name", "tint"); ("type", "float3"); ("group", "base")] None [];
          node "Parameter" [("name", "wave"); ("type", "float2"); ("group", "extra");
                            ("arraySize", "2")] None
            [ node "Default" [("index", "0")] (Some "5 6") [];
              node "Default" [("index", "1")] (Some "7") [] ];
          node "Parameter" [("name", "uv"); ("type", "float4"); ("defaultValue", "1 2")] None [] ];
      node "Textures" [] None
        [ node "Texture" [("name", "diffuse"); ("defaultColorProfile", "sRGB");
                          ("defaultFilename", "white.png")] None [];
          node "Texture" [("name", "mask")] None [];
          node "Texture" [("name", "detail"); ("defaultColorProfile", "linearRGB");
                          ("group", "extra")] None [] ];
      node "Variations" [] None
        [ node "Variation" [("name", "waving"); ("groups", "extra")] None [];
          node "Variation" [("name", "plain")] None [] ] ].

Definition sample_grouped_textures : gmap string (list TextureSpec) :=
  {[ "mandatory" := [mkTextureSpec "diffuse" "white.png"];
     "extra" := [mkTextureSpec "detail" ""] ]}.

Definition sample_grouped_parameters : gmap string (list ParameterSpec) :=
  {[ "mandatory" := [ mkParameterSpec "alpha" "float" ["1"];
                      mkParameterSpec "uv" "float4" ["1"; "2"; "0"; "0"] ];
     "base" := [ mkParameterSpec "tint" "float3" ["0"; "0"; "0"] ];
     "extra" := [ mkParameterSpec "wave0" "float2" ["5"; "6"];
                  mkParameterSpec "wave1" "float2" ["7"; "0"] ] ]}.

(** A descriptor whose only texture has neither a group nor a colour
    profile. *)
Definition unprofiled_descriptor : Element :=
  node "CustomShader" [] None
    [ node "Textures" [] None [ node "Texture" [("name", "mask")] None [] ] ].

(** A stand-in for [float] in the sample runs: it reads unsigned decimal
    integers and rejects everything else. *)
Fixpoint decimal (acc : nat) (s : string) : option nat :=
  match s with
  | EmptyString => Some acc
  | String c s' =>
      let n := nat_of_ascii c in
      if ((48 <=? n) && (n <=? 57))%nat then decimal (10 * acc + (n - 48)) s' else None
  end.

Definition sample_float (s : string) : option nat :=
  if decide (s = "") then None else decimal 0 s.

(** The only descriptor on the sample disk. *)
Definition sample_disk (path : string) : option Element :=
  if decide (path = "/fs/shaders/vehicleShader.xml") then Some sample_descriptor else None.

Definition stale_parameter : @I3DShaderParameter nat :=
  mkShaderParameter "old" "float" 7%nat [0; 0]%nat [0; 0; 0]%nat [0; 0; 0; 0]%nat.

(** A material showing the stock shader [vehicleShader], with state left
    from an earlier load. *)
Definition stock_material (current : string) : @I3DMaterialShader nat :=
  mkMaterialShader "vehicleShader" "" current ["None"; "waving"; "plain"]
                   [stale_parameter] [mkShaderTexture "old" "old.png" "old.png"].


Definition world_of (a : @I3DMaterialShader nat) (object : option (option string))
  : @World nat :=
  mkWorld {[ "Mat" := a ]} object "/fs" [] [].

Definition active : option (option string) := Some (Some "Mat").

(** The world after loading the variation [waving] of the sample. *)
Definition waving_loaded : @World nat :=
  snd (load_custom_shader_variation sample_float 0%nat sample_disk ""
         (world_of (stock_material "waving") active)).


(** A parameter entry whose second default token is not a number. *)
Definition bad_float_parameter : Element :=
  node "Parameter" [("name", "tint"); ("type", "float2"); ("defaultValue", "1 x")] None [].

(** A descriptor with an entry of unknown type in a group that no
    variation selects. *)
Definition malformed_descriptor : Element :=
  node "CustomShader" [] None
    [ node "Parameters" [] None
        [ node "Parameter" [("name", "alpha"); ("type", "float"); ("defaultValue", "1")] None [];
          node "Parameter" [("name", "tint"); ("type", "colour"); ("group", "unused")] None [] ] ].

(** A stand-in for [repr] in the sample runs. *)
Definition sample_render (X : Type) (x : X) : string := "<repr>".

(** The sample material after its shader was loaded and its variation
    [waving] filled in. *)
Definition loaded_material : @I3DMaterialShader nat :=
  default (stock_material "waving") (materials waving_loaded !! "Mat").

(** ** The shader enum, panels and migration helpers *)

Module ShaderEnum.
Import ShaderCache.

(** [next((index for index, (key, _, _) in enumerate(items)
          if key == shader_default), 0)] *)
Definition default_index (items : list item) : nat :=
  match list_find (fun it : item => fst (fst it) = shader_default) items with
  | Some (index, _) => index
  | None => 0%nat
  end.

(** [shader_getter]: the items are queried first, then the stored index
    ([self.get('shader', default_index)]) is read. *)
Definition shader_getter (stored : option nat) (disk : Disk) (s : Session) : nat * Session :=
  let '(items, s1) := shader_items_update disk s in
  (default (default_index items) stored, s1).

End ShaderEnum.

Section Migration.

Context {F : Type} (zero : F).

(** [print(old_parameters_data)] writes the list's [repr]; the rendering
    of Python values is left abstract. *)
Context (render : forall X : Type, X -> string).

#[local] Existing Instances A_ret A_bind M_ret M_bind.

(** The dictionary [param_data] of [extract_parameters_data]: the keys
    [data_float_1] .. [data_float_4] are present or not. *)
Record ParameterData : Type :=
  mkParameterData {
    pd_name : string;
    pd_type : string;
    pd_data_float_1 : option F;
    pd_data_float_2 : option (list F);
    pd_data_float_3 : option (list F);
    pd_data_float_4 : option (list F)
  }.

(** The dictionaries of [extract_textures_data]. *)
Record TextureData : Type :=
  mkTextureData {
    td_name : string;
    td_source : string;
    td_default_source : string
  }.

(** Body of the loop of [extract_parameters_data]. *)
Definition extract_parameter (param : @I3DShaderParameter F) : ParameterData :=
  if decide (sp_type param = "float")
  then mkParameterData (sp_name param) (sp_type param)
                       (Some (data_float_1 param)) None None None
  else if decide (sp_type param = "float2")
  then mkParameterData (sp_name param) (sp_type param)
                       None (Some (data_float_2 param)) None None
  else if decide (sp_type param = "float3")
  then mkParameterData (sp_name param) (sp_type param)
                       None None (Some (data_float_3 param)) None
  else if decide (sp_type param = "float4")
  then mkParameterData (sp_name param) (sp_type param)
                       None None None (Some (data_float_4 param))
  else mkParameterData (sp_name param) (sp_type param) None None None None.

Definition extract_parameters_data (attr : @I3DMaterialShader F) : list ParameterData :=
  map extract_parameter (shader_parameters attr).

Definition extract_textures_data (attr : @I3DMaterialShader F) : list TextureData :=
  map (fun texture => mkTextureData (st_name texture) (source texture)
                                    (default_source texture))
      (shader_textures attr).

(** [old_param[key]] *)
Definition data_item {X : Type} (slot : option X) (key : string) : result X :=
  match slot with
  | Some x => Ok x
  | None => Raise (KeyError key)
  end.

(** Body of the loop of [apply_parameters_data]. *)
Definition apply_parameter (old_param : ParameterData) : @A_ F unit :=
  _ ← a_modify (fun a => set_shader_parameters (shader_parameters a ++ [new_parameter zero]) a);
  _ ← param_set (set_sp_name (pd_name old_param));
  _ ← param_set (set_sp_type (pd_type old_param));
  if decide (pd_type old_param = "float")
  then v ← a_lift (data_item (pd_data_float_1 old_param) "data_float_1");
       param_set (set_data_float_1 v)
  else if decide (pd_type old_param = "float2")
  then v ← a_lift (data_item (pd_data_float_2 old_param) "data_float_2");
       param_set (set_data_float_2 v)
  else if decide (pd_type old_param = "float3")
  then v ← a_lift (data_item (pd_data_float_3 old_param) "data_float_3");
       param_set (set_data_float_3 v)
  else if decide (pd_type old_param = "float4")
  then v ← a_lift (data_item (pd_data_float_4 old_param) "data_float_4");
       param_set (set_data_float_4 v)
  else a_ret tt.

(** [apply_parameters_data(attr, old_parameters_data)], with [attr] the
    attributes of the material named [attr]. *)
Definition apply_parameters_data (attr : string) (old_parameters_data : list ParameterData)
  : @M F unit :=
  _ ← print (render _ old_parameters_data);
  on attr (for_ apply_parameter old_parameters_data).

(** Body of the loop of [apply_textures_data]. *)
Definition apply_texture (old_texture_data : TextureData) : @A_ F unit :=
  _ ← a_modify (fun a => set_shader_textures (shader_textures a ++ [new_texture]) a);
  _ ← tex_set (fun t => mkShaderTexture (td_name old_texture_data) (source t) (default_source t));
  _ ← tex_set (fun t => mkShaderTexture (st_name t) (td_source old_texture_data) (default_source t));
  tex_set (fun t => mkShaderTexture (st_name t) (source t) (td_default_source old_texture_data)).

Definition apply_textures_data (attr : string) (old_textures_data : list TextureData)
  : @M F unit :=
  on attr (for_ apply_texture old_textures_data).

(** The entry [apply_parameter] rebuilds from what [extract_parameter]
    kept of [param]: the name, the type and the data field of that type,
    the other data fields at their defaults. *)
Definition restored (param : @I3DShaderParameter F) : @I3DShaderParameter F :=
  let fresh := set_sp_type (sp_type param) (set_sp_name (sp_name param) (new_parameter zero)) in
  if decide (sp_type param = "float") then set_data_float_1 (data_float_1 param) fresh
  else if decide (sp_type param = "float2") then set_data_float_2 (data_float_2 param) fresh
  else if decide (sp_type param = "float3") then set_data_float_3 (data_float_3 param) fresh
  else if decide (sp_type param = "float4") then set_data_float_4 (data_float_4 param) fresh
  else fresh.

(** *** Panels *)

(** The [poll] of the parameter and texture panels:
    [bool(context.object.active_material.i3d_attributes.<collection>)],
    [False] on [AttributeError]. *)
Definition collection_poll {X : Type} (collection : @I3DMaterialShader F -> list X)
  : @M F bool :=
  fun w =>
    match (attributes ← active_attributes; on attributes (a_read collection)) w with
    | (Ok items, w1) => (Ok (negb (bool_decide (items = []))), w1)
    | (Raise (AttributeError _), w1) => (Ok false, w1)
    | (Raise e, w1) => (Raise e, w1)
    end.

(** What a row of the parameter panel edits. *)
Inductive FieldValue : Type :=
  | Scalar (x : F)
  | Vector (xs : list F).

(** The [if]/[elif]/[else] chain of [I3D_IO_PT_shader_parameters.draw]. *)
Definition property_type (ty : string) : string :=
  if decide (ty = "float") then "data_float_1"
  else if decide (ty = "float2") then "data_float_2"
  else if decide (ty = "float3") then "data_float_3"
  else "data_float_4".

(** [getattr(parameter, field)] for the four data fields. *)
Definition field_value (parameter : @I3DShaderParameter F) (field : string) : FieldValue :=
  if decide (field = "data_float_1") then Scalar (data_float_1 parameter)
  else if decide (field = "data_float_2") then Vector (data_float_2 parameter)
  else if decide (field = "data_float_3") then Vector (data_float_3 parameter)
  else Vector (data_float_4 parameter).

(** The value shown in the row drawn for [parameter]. *)
Definition drawn (parameter : @I3DShaderParameter F) : FieldValue :=
  field_value parameter (property_type (sp_type parameter)).

End Migration.

(** * Properties *)

(** ** Default values *)

Lemma declared_arity_type_length (ty : string) (n : Z) :
  (ty, n) ∈ declared_arity -> type_length_of ty = Some n /\ 1 <= n <= 4.
Proof.
  unfold declared_arity. rewrite !elem_of_cons, elem_of_nil.
  intros [H | [H | [H | [H | []]]]]; injection H as -> ->;
    (split; [reflexivity | lia]).
Qed.

Lemma type_length_declared (ty : string) (n : Z) :
  type_length_of ty = Some n -> (ty, n) ∈ declared_arity.
Proof.
  unfold type_length_of, declared_arity.
  repeat case_decide; intros Heq; try discriminate; injection Heq as <-; subst;
    set_solver.
Qed.

Lemma py_len_take {A : Type} (xs : list A) (k : nat) :
  (k <= length xs)%nat -> py_len (take k xs) = Z.of_nat k.
Proof. intros H. unfold py_len. rewrite length_take. lia. Qed.

(** [parse_default] with an assigned [type_length]: it always returns, and
    what it returns is decided by comparing the token count with the arity. *)
Lemma parse_default_assigned (n : Z) (default : option string) :
  1 <= n ->
  parse_default (Some n) default =
    Ok (if py_len (tokens_of default) >? n
        then take (Z.to_nat (n - 1)) (tokens_of default) ++ ["0"]
        else tokens_of default ++ replicate (Z.to_nat (n - py_len (tokens_of default))) "0").
Proof.
  intros Hn. unfold parse_default, py_list_mul.
  destruct default as [d |]; cbn [tokens_of read_type_length mbind result_bind].
  - destruct (py_len (py_split d) >? n) eqn:Hcmp; cbn; [| reflexivity].
    apply Z.gtb_lt in Hcmp. unfold py_slice_to.
    destruct (n - 1 <? 0) eqn:Hneg; [apply Z.ltb_lt in Hneg; lia |].
    rewrite py_len_take by (unfold py_len in Hcmp; lia).
    replace (Z.to_nat (n - Z.of_nat (Z.to_nat (n - 1)))) with 1%nat by lia.
    reflexivity.
  - destruct (py_len [] >? n) eqn:Hcmp; [| reflexivity].
    apply Z.gtb_lt in Hcmp. unfold py_len in Hcmp. cbn in Hcmp. lia.
Qed.

Lemma parse_default_length (n : Z) (default : option string) (dv : list string) :
  1 <= n -> parse_default (Some n) default = Ok dv -> py_len dv = n.
Proof.
  intros Hn. rewrite parse_default_assigned by assumption. intros [= <-].
  destruct (py_len (tokens_of default) >? n) eqn:Hcmp.
  - apply Z.gtb_lt in Hcmp. unfold py_len in *.
    rewrite length_app, length_take. cbn. lia.
  - assert (py_len (tokens_of default) <= n) by (destruct (Z.gtb_spec (py_len (tokens_of default)) n); [discriminate | lia]).
    unfold py_len in *. rewrite length_app, length_replicate. lia.
Qed.

Lemma parse_default_unassigned (default : option string) :
  parse_default None default = Raise (NameError "type_length").
Proof. destruct default; reflexivity. Qed.

Lemma bind_Ok {A B : Type} (r : result A) (k : A -> result B) (b : B) :
  (r ≫= k) = Ok b <-> exists a, r = Ok a /\ k a = Ok b.
Proof.
  destruct r as [a | e]; cbn.
  - split; [eauto | intros (a' & [= <-] & H); exact H].
  - split; [discriminate | intros (a' & [=] & _)].
Qed.

Lemma for_each_Forall2 {A B : Type} (f : A -> result B) (xs : list A) (ys : list B) :
  for_each f xs = Ok ys <-> Forall2 (fun x y => f x = Ok y) xs ys.
Proof.
  revert ys. induction xs as [| x xs IH]; intros ys; cbn.
  - split; [intros [= <-]; constructor | intros H; inversion H; reflexivity].
  - split.
    + intros H. apply bind_Ok in H as (y & Hy & H).
      apply (bind_Ok (for_each f xs)) in H as (ys' & Hys & [= <-]).
      constructor; [exact Hy | apply IH, Hys].
    + intros H. inversion H as [| ? y ? ys' Hy Hys]; subst.
      apply IH in Hys. rewrite Hy. cbn. rewrite Hys. reflexivity.
Qed.

Lemma getitem_Some (e : Element) (key v : string) :
  attrib e !! key = Some v -> getitem e key = Ok v.
Proof. unfold getitem. intros ->. reflexivity. Qed.

Lemma getitem_Ok (e : Element) (key v : string) :
  getitem e key = Ok v -> attrib e !! key = Some v.
Proof. unfold getitem. destruct (attrib e !! key); [intros [= ->]; reflexivity | discriminate]. Qed.

(** An entry without [arraySize] and with a known type yields one spec. *)
Lemma plain_parameter (parameter : Element) (name ty : string) (n : Z) :
  attrib parameter !! "arraySize" = None ->
  attrib parameter !! "name" = Some name ->
  attrib parameter !! "type" = Some ty ->
  parameter_element_as_dict parameter =
    (dv ← parse_default (type_length_of ty) (attrib parameter !! "defaultValue");
     Ok [mkParameterSpec name ty dv]).
Proof.
  intros Harr Hname Hty. unfold parameter_element_as_dict.
  rewrite (getitem_Some _ _ _ Hty), (getitem_Some _ _ _ Hname). cbn.
  rewrite Harr. case_decide as Hs; [destruct Hs as [? [=]] |]. reflexivity.
Qed.

(** An entry with [arraySize] runs the loop over its children. *)
Lemma array_parameter (parameter : Element) (ty : string) :
  is_Some (attrib parameter !! "arraySize") ->
  attrib parameter !! "type" = Some ty ->
  parameter_element_as_dict parameter =
    for_each (array_item parameter (type_length_of ty)) (children parameter).
Proof.
  intros Harr Hty. unfold parameter_element_as_dict.
  rewrite (getitem_Some _ _ _ Hty). cbn.
  case_decide; [reflexivity | contradiction].
Qed.

Lemma array_item_Ok (parameter child : Element) (tl : option Z) (spec : ParameterSpec) :
  array_item parameter tl child = Ok spec <->
  exists name index ty dv,
    attrib parameter !! "name" = Some name /\ attrib child !! "index" = Some index /\
    attrib parameter !! "type" = Some ty /\ parse_default tl (text child) = Ok dv /\
    spec = mkParameterSpec (name +:+ index) ty dv.
Proof.
  unfold array_item. split.
  - intros H.
    apply bind_Ok in H as (name & Hname & H).
    apply bind_Ok in H as (index & Hindex & H).
    apply bind_Ok in H as (ty & Hty & H).
    apply bind_Ok in H as (dv & Hdv & [= <-]).
    exists name, index, ty, dv. eauto 10 using getitem_Ok.
  - intros (name & index & ty & dv & Hname & Hindex & Hty & Hdv & ->).
    rewrite (getitem_Some _ _ _ Hname), (getitem_Some _ _ _ Hindex),
      (getitem_Some _ _ _ Hty). cbn. rewrite Hdv. reflexivity.
Qed.

(** Every spec of an entry carries the entry's type and a default value
    produced by [parse_default] at that type's length. *)
Lemma parameter_spec_origin (parameter : Element) (specs : list ParameterSpec)
    (spec : ParameterSpec) :
  parameter_element_as_dict parameter = Ok specs -> spec ∈ specs ->
  exists ty default,
    attrib parameter !! "type" = Some ty /\ p_type spec = ty /\
    parse_default (type_length_of ty) default = Ok (p_default_value spec).
Proof.
  intros Hrun Hin. unfold parameter_element_as_dict in Hrun.
  apply bind_Ok in Hrun as (ty & Hty & Hrun). apply getitem_Ok in Hty.
  case_decide as Harr.
  - apply for_each_Forall2 in Hrun.
    apply list_elem_of_lookup in Hin as [i Hi].
    destruct (Forall2_lookup_r _ _ _ _ _ Hrun Hi) as (child & _ & Hitem).
    apply array_item_Ok in Hitem
      as (name & index & ty' & dv & _ & _ & Hty' & Hdv & ->).
    exists ty, (text child). cbn. repeat split; [exact Hty | congruence | exact Hdv].
  - apply bind_Ok in Hrun as (name & _ & Hrun).
    apply bind_Ok in Hrun as (ty' & Hty' & Hrun). apply getitem_Ok in Hty'.
    apply bind_Ok in Hrun as (dv & Hdv & [= <-]).
    apply list_elem_of_singleton in Hin as ->.
    exists ty, (attrib parameter !! "defaultValue"). cbn.
    repeat split; [exact Hty | congruence | exact Hdv].
Qed.

Lemma parse_default_zero_filled (n : Z) (default : option string) (dv : list string) :
  1 <= n -> parse_default (Some n) default = Ok dv ->
  (forall i : nat, (length (tokens_of default) <= i)%nat -> Z.of_nat i < n ->
     dv !! i = Some "0") /\
  (py_len (tokens_of default) <= n ->
     take (length (tokens_of default)) dv = tokens_of default).
Proof.
  intros Hn. rewrite parse_default_assigned by assumption. intros [= <-].
  unfold py_len. destruct (Z.gtb_spec (Z.of_nat (length (tokens_of default))) n) as [Hgt | Hle].
  - split; intros; lia.
  - split.
    + intros i Hi Hlt. rewrite lookup_app_r by exact Hi.
      apply lookup_replicate_2. lia.
    + intros _. apply take_app_length.
Qed.

(** C1: on a scalar ([float]) entry whose default string is ["1 2 3 4"] the
    code does not keep the first token: the four tokens are sliced to
    [type_length - 1 = 0] elements and the padding then yields the single
    value ["0"]. *)
Theorem scalar_default_of_four_tokens :
  parse_default (type_length_of "float") (Some "1 2 3 4") = Ok ["0"] /\
  parameter_element_as_dict scalar_four_tokens = Ok [mkParameterSpec "p" "float" ["0"]].
Proof. split; reflexivity. Qed.

(** Where the default value of a derived spec comes from: the entry's
    [defaultValue] attribute when the entry has no [arraySize], the text
    of the child at the same position otherwise. *)
Lemma parameter_spec_source (parameter : Element) (specs : list ParameterSpec)
    (spec : ParameterSpec) :
  parameter_element_as_dict parameter = Ok specs -> spec ∈ specs ->
  exists ty default,
    attrib parameter !! "type" = Some ty /\
    ((attrib parameter !! "arraySize" = None /\ specs = [spec] /\
      default = attrib parameter !! "defaultValue") \/
     (is_Some (attrib parameter !! "arraySize") /\
      exists (i : nat) (child : Element),
        children parameter !! i = Some child /\ specs !! i = Some spec /\
        default = text child)) /\
    parse_default (type_length_of ty) default = Ok (p_default_value spec).
Proof.
  intros Hrun Hin. unfold parameter_element_as_dict in Hrun.
  apply bind_Ok in Hrun as (ty & Hty & Hrun). apply getitem_Ok in Hty.
  case_decide as Harr.
  - apply for_each_Forall2 in Hrun.
    apply list_elem_of_lookup in Hin as [i Hi].
    destruct (Forall2_lookup_r _ _ _ _ _ Hrun Hi) as (child & Hchild & Hitem).
    apply array_item_Ok in Hitem
      as (name & index & ty' & dv & _ & _ & _ & Hdv & ->).
    exists ty, (text child). split; [exact Hty |]. split; [| exact Hdv].
    right. split; [exact Harr |]. exists i, child. auto.
  - apply bind_Ok in Hrun as (name & _ & Hrun).
    apply bind_Ok in Hrun as (ty' & _ & Hrun).
    apply bind_Ok in Hrun as (dv & Hdv & [= <-]).
    apply list_elem_of_singleton in Hin as ->.
    exists ty, (attrib parameter !! "defaultValue"). split; [exact Hty |].
    split; [| exact Hdv]. left.
    split; [destruct (attrib parameter !! "arraySize"); [exfalso; eauto | reflexivity] |].
    split; reflexivity.
Qed.

(** C4: for an entry whose type is one of float/float2/float3/float4,
    every derived default value is [parse_default] of its source (the
    entry's [defaultValue] attribute, or the text of the child at the same
    position for an array entry) and has exactly as many components as the
    type's arity; components beyond the given tokens are ["0"] and, when
    there are no more tokens than the arity, the tokens themselves are
    kept; a [float3] entry with no default derives ["0"; "0"; "0"]. *)
Theorem default_value_length_is_arity (parameter : Element) (ty : string) (n : Z) :
  attrib parameter !! "type" = Some ty ->
  (ty, n) ∈ declared_arity ->
  (forall specs spec,
      parameter_element_as_dict parameter = Ok specs -> spec ∈ specs ->
      py_len (p_default_value spec) = n /\
      exists default : option string,
        ((attrib parameter !! "arraySize" = None /\ specs = [spec] /\
          default = attrib parameter !! "defaultValue") \/
         (is_Some (attrib parameter !! "arraySize") /\
          exists (i : nat) (child : Element),
            children parameter !! i = Some child /\ specs !! i = Some spec /\
            default = text child)) /\
        parse_default (type_length_of ty) default = Ok (p_default_value spec) /\
        (forall i : nat, (length (tokens_of default) <= i)%nat -> Z.of_nat i < n ->
           p_default_value spec !! i = Some "0") /\
        (py_len (tokens_of default) <= n ->
           take (length (tokens_of default)) (p_default_value spec) = tokens_of default)) /\
  (forall default : option string,
      exists dv, parse_default (type_length_of ty) default = Ok dv /\ py_len dv = n /\
        (forall i : nat, (length (tokens_of default) <= i)%nat -> Z.of_nat i < n ->
           dv !! i = Some "0") /\
        (py_len (tokens_of default) <= n ->
           take (length (tokens_of default)) dv = tokens_of default)) /\
  (forall name,
      attrib parameter !! "arraySize" = None ->
      attrib parameter !! "name" = Some name ->
      exists dv, parameter_element_as_dict parameter = Ok [mkParameterSpec name ty dv] /\
                 py_len dv = n /\
                 parse_default (type_length_of ty) (attrib parameter !! "defaultValue")
                   = Ok dv /\
                 (forall i : nat,
                    (length (tokens_of (attrib parameter !! "defaultValue")) <= i)%nat ->
                    Z.of_nat i < n -> dv !! i = Some "0") /\
                 (py_len (tokens_of (attrib parameter !! "defaultValue")) <= n ->
                  take (length (tokens_of (attrib parameter !! "defaultValue"))) dv
                  = tokens_of (attrib parameter !! "defaultValue")) /\
                 (ty = "float3" -> attrib parameter !! "defaultValue" = None ->
                  dv = ["0"; "0"; "0"])).
Proof.
  intros Hty Harity.
  destruct (declared_arity_type_length _ _ Harity) as [Htl Hn].
  assert (Hdefault : forall default, exists dv,
             parse_default (Some n) default = Ok dv /\ py_len dv = n).
  { intros default. rewrite parse_default_assigned by lia.
    eexists; split; [reflexivity |].
    eapply (parse_default_length n default); [lia |].
    apply parse_default_assigned; lia. }
  split; [| split].
  - intros specs spec Hrun Hin.
    destruct (parameter_spec_source _ _ _ Hrun Hin) as (ty' & default & Hty' & Hsrc & Hdv).
    assert (ty' = ty) as -> by congruence. rewrite Htl in Hdv.
    split; [eapply parse_default_length; [| exact Hdv]; lia |].
    exists default. split; [exact Hsrc |]. rewrite Htl. split; [exact Hdv |].
    apply (parse_default_zero_filled n default); [lia | exact Hdv].
  - intros default. rewrite Htl.
    destruct (Hdefault default) as (dv & Hdv & Hlen).
    exists dv. split; [exact Hdv |]. split; [exact Hlen |].
    apply (parse_default_zero_filled n default dv); [lia | exact Hdv].
  - intros name Harr Hname.
    rewrite (plain_parameter _ _ _ n Harr Hname Hty), Htl.
    destruct (Hdefault (attrib parameter !! "defaultValue")) as (dv & Hdv & Hlen).
    exists dv. rewrite Hdv. split; [reflexivity |]. split; [exact Hlen |].
    split; [reflexivity |].
    destruct (parse_default_zero_filled n (attrib parameter !! "defaultValue") dv)
      as [Hzero Hkept]; [lia | exact Hdv |].
    split; [exact Hzero |]. split; [exact Hkept |].
    intros -> Hnone. rewrite Hnone in Hdv.
    assert (n = 3) as -> by (cbv in Htl; congruence).
    cbv in Hdv. congruence.
Qed.

Lemma default_value_length_is_arity_witness :
  exists dv,
    parameter_element_as_dict vector3_no_default = Ok [mkParameterSpec "scale" "float3" dv] /\
    py_len dv = 3 /\
    parse_default (type_length_of "float3") (attrib vector3_no_default !! "defaultValue")
      = Ok dv /\
    (forall i : nat,
        (length (tokens_of (attrib vector3_no_default !! "defaultValue")) <= i)%nat ->
        Z.of_nat i < 3 -> dv !! i = Some "0") /\
    (py_len (tokens_of (attrib vector3_no_default !! "defaultValue")) <= 3 ->
     take (length (tokens_of (attrib vector3_no_default !! "defaultValue"))) dv
     = tokens_of (attrib vector3_no_default !! "defaultValue")) /\
    ("float3" = "float3" -> attrib vector3_no_default !! "defaultValue" = None ->
     dv = ["0"; "0"; "0"]).
Proof.
  refine (proj2 (proj2 (default_value_length_is_arity vector3_no_default "float3" 3 _ _))
            "scale" _ _).
  - reflexivity.
  - unfold declared_arity. do 2 apply list_elem_of_further. apply list_elem_of_here.
  - reflexivity.
  - reflexivity.
Defined.

(** A [float4] entry with two tokens keeps them and is padded with two
    zeros. *)
Example float4_two_tokens :
  parameter_element_as_dict
    (node "Parameter" [("name", "uv"); ("type", "float4"); ("defaultValue", "1 2")] None [])
  = Ok [mkParameterSpec "uv" "float4" ["1"; "2"; "0"; "0"]].
Proof. reflexivity. Qed.

(** ** Array parameters *)

Lemma for_each_total {A B : Type} (f : A -> result B) (g : A -> B) (xs : list A) :
  Forall (fun x => f x = Ok (g x)) xs -> for_each f xs = Ok (map g xs).
Proof.
  induction 1 as [| x xs Hx _ IH]; cbn; [reflexivity |].
  rewrite Hx. cbn. rewrite IH. reflexivity.
Qed.

(** C5: an entry with an array-size attribute (and a name, a known type and
    indexed children) produces exactly one spec per child, in order; the
    spec of a child is named by the parent's name followed by the child's
    index and carries the child's text parsed as its default value. *)
Theorem array_parameter_one_spec_per_child (parameter : Element) (name ty : string) (n : Z) :
  is_Some (attrib parameter !! "arraySize") ->
  attrib parameter !! "name" = Some name ->
  attrib parameter !! "type" = Some ty ->
  (ty, n) ∈ declared_arity ->
  Forall (fun child => is_Some (attrib child !! "index")) (children parameter) ->
  exists specs,
    parameter_element_as_dict parameter = Ok specs /\
    length specs = length (children parameter) /\
    forall (i : nat) (child : Element),
      children parameter !! i = Some child ->
      exists index dv,
        attrib child !! "index" = Some index /\
        parse_default (type_length_of ty) (text child) = Ok dv /\
        specs !! i = Some (mkParameterSpec (name +:+ index) ty dv).
Proof.
  intros Harr Hname Hty Harity Hindexed.
  destruct (declared_arity_type_length _ _ Harity) as [Htl Hn].
  rewrite (array_parameter _ _ Harr Hty), Htl.
  set (dv_of := fun child : Element =>
         if py_len (tokens_of (text child)) >? n
         then take (Z.to_nat (n - 1)) (tokens_of (text child)) ++ ["0"]
         else tokens_of (text child)
                ++ replicate (Z.to_nat (n - py_len (tokens_of (text child)))) "0").
  set (spec_of := fun child : Element =>
         mkParameterSpec (name +:+ get_default child "index" "") ty (dv_of child)).
  assert (Hitem : forall child, is_Some (attrib child !! "index") ->
            array_item parameter (Some n) child = Ok (spec_of child)).
  { intros child [index Hindex]. apply array_item_Ok.
    exists name, index, ty, (dv_of child).
    repeat split; try assumption.
    - apply parse_default_assigned; lia.
    - unfold spec_of, get_default. rewrite Hindex. reflexivity. }
  exists (map spec_of (children parameter)). split; [| split].
  - apply for_each_total. eapply Forall_impl; [exact Hindexed | exact Hitem].
  - apply length_map.
  - intros i child Hchild.
    rewrite Forall_forall in Hindexed.
    destruct (Hindexed child) as [index Hindex].
    { apply list_elem_of_lookup. eauto. }
    exists index, (dv_of child). split; [exact Hindex |]. split.
    + apply parse_default_assigned; lia.
    + rewrite list_lookup_fmap, Hchild. cbn. unfold spec_of, get_default.
      rewrite Hindex. reflexivity.
Qed.

Lemma array_parameter_one_spec_per_child_witness :
  exists specs,
    parameter_element_as_dict array_of_three = Ok specs /\
    length specs = length (children array_of_three) /\
    forall (i : nat) (child : Element),
      children array_of_three !! i = Some child ->
      exists index dv,
        attrib child !! "index" = Some index /\
        parse_default (type_length_of "float4") (text child) = Ok dv /\
        specs !! i = Some (mkParameterSpec ("lightIds" +:+ index) "float4" dv).
Proof.
  apply (array_parameter_one_spec_per_child array_of_three "lightIds" "float4" 4).
  - exists "3". reflexivity.
  - reflexivity.
  - reflexivity.
  - unfold declared_arity. do 3 apply list_elem_of_further. apply list_elem_of_here.
  - repeat constructor; eexists; reflexivity.
Defined.

Example array_of_three_specs :
  parameter_element_as_dict array_of_three =
    Ok [ mkParameterSpec "lightIds0" "float4" ["1"; "0"; "0"; "0"];
         mkParameterSpec "lightIds1" "float4" ["2"; "0"; "0"; "0"];
         mkParameterSpec "lightIds2" "float4" ["0"; "0"; "0"; "0"] ].
Proof. reflexivity. Qed.

(** ** Unknown parameter types *)

(** With an unknown type, any entry that reaches [parse_default] raises:
    every entry without [arraySize] does. *)
Lemma unknown_type_plain_raises (parameter : Element) (name ty : string) :
  attrib parameter !! "type" = Some ty ->
  type_length_of ty = None ->
  attrib parameter !! "arraySize" = None ->
  attrib parameter !! "name" = Some name ->
  parameter_element_as_dict parameter = Raise (NameError "type_length").
Proof.
  intros Hty Htl Harr Hname.
  rewrite (plain_parameter _ _ _ 0 Harr Hname Hty), Htl, parse_default_unassigned.
  reflexivity.
Qed.

Lemma type_length_of_None (ty : string) :
  type_length_of ty = None <-> ty ∉ ["float"; "float2"; "float3"; "float4"].
Proof.
  unfold type_length_of. rewrite !not_elem_of_cons.
  repeat case_decide; subst; split; try discriminate; try tauto.
  intros _. repeat split; try assumption. apply not_elem_of_nil.
Qed.

(** C9: there is a parameter entry whose type attribute is none of
    float/float2/float3/float4 on which [parameter_element_as_dict] raises
    (the read of the never-assigned [type_length]); hence the function
    does not return a spec list for every entry that has a type. *)
Theorem unknown_type_raises :
  (exists parameter ty,
      attrib parameter !! "type" = Some ty /\
      (ty ∉ ["float"; "float2"; "float3"; "float4"]) /\
      parameter_element_as_dict parameter = Raise (NameError "type_length")) /\
  ~ (forall parameter,
        is_Some (attrib parameter !! "type") ->
        exists specs, parameter_element_as_dict parameter = Ok specs).
Proof.
  assert (Hraise : parameter_element_as_dict unknown_type_entry
                   = Raise (NameError "type_length")).
  { apply (unknown_type_plain_raises _ "tint" "float5"); reflexivity. }
  split.
  - exists unknown_type_entry, "float5". split; [reflexivity |].
    split; [| exact Hraise]. apply type_length_of_None. reflexivity.
  - intros Htotal. destruct (Htotal unknown_type_entry) as [specs Hspecs].
    + exists "float5". reflexivity.
    + rewrite Hraise in Hspecs. discriminate.
Qed.

(** ** The shader-name cache *)

Module ShaderCacheFacts.
Import ShaderCache.

(** A query against a non-empty cache answers from the cache alone. *)
Lemma cached_query (disk : Disk) (s : Session) (cached : list item) :
  SHADER_CACHE s = Some cached -> cached <> [] ->
  shader_items_update disk s = (STATIC_ITEMS ++ cached, s).
Proof.
  intros Hcache Hne. unfold shader_items_update. rewrite Hcache.
  destruct cached; [contradiction | reflexivity].
Qed.

(** A query that changes the session started from a falsy cache. *)
Lemma cache_written_only_when_falsy (disk : Disk) (s : Session) :
  snd (shader_items_update disk s) <> s -> truthy (SHADER_CACHE s) = false.
Proof.
  unfold shader_items_update. destruct (truthy (SHADER_CACHE s)); [| reflexivity].
  cbn. contradiction.
Qed.

(** C8: once [SHADER_CACHE] holds a non-empty list, every later query,
    whatever the disk looks like by then, returns the static items
    followed by that list and leaves the session (the cache and the log
    of file-system accesses) as it was. *)
Theorem cache_populated_once (disks : list Disk) (s : Session) (cached : list item) :
  SHADER_CACHE s = Some cached -> cached <> [] ->
  queries disks s = (map (fun _ => STATIC_ITEMS ++ cached) disks, s).
Proof.
  intros Hcache Hne. induction disks as [| d rest IH]; cbn; [reflexivity |].
  rewrite (cached_query d s cached Hcache Hne), IH. reflexivity.
Qed.

Lemma cache_populated_once_witness :
  queries [moved_away; two_shaders; mkDisk "" None] warm =
    (map (fun _ => STATIC_ITEMS ++ [("vehicleShader", "vehicleShader", "Shader");
                                    ("tileShader", "tileShader", "Shader")])
         [moved_away; two_shaders; mkDisk "" None],
     warm).
Proof.
  apply (cache_populated_once _ warm).
  - reflexivity.
  - discriminate.
Defined.

(** An empty scan leaves a falsy cache, so the next query scans again. *)
Example empty_cache_rescans :
  let s1 := snd (shader_items_update (mkDisk "/fs" (Some [])) (mkSession None [])) in
  SHADER_CACHE s1 = Some [] /\
  fs_log (snd (shader_items_update two_shaders s1)) = [Exists; Glob; Exists; Glob].
Proof. split; reflexivity. Qed.

End ShaderCacheFacts.

(** ** Grouping *)

Lemma lookup_extend_group {A : Type} (grouped : gmap string (list A))
    (group_name g : string) (specs : list A) :
  extend_group grouped group_name specs !! g =
    if decide (group_name = g) then Some (default [] (grouped !! g) ++ specs)
    else grouped !! g.
Proof.
  unfold extend_group. case_decide as Heq.
  - subst. apply lookup_insert_eq.
  - apply lookup_insert_ne, Heq.
Qed.

Lemma scan_parameters_spec (ps : list Element) :
  forall grouped m,
    scan_parameters grouped ps = Ok m ->
    Forall (fun e => parameter_element_as_dict e = Ok (specs_of e)) ps /\
    forall g,
      default [] (m !! g) = default [] (grouped !! g) ++ parameters_in_group g ps /\
      (is_Some (m !! g) <-> is_Some (grouped !! g) \/ exists e, e ∈ ps /\ group_of e = g).
Proof.
  induction ps as [| e ps IH]; intros grouped m Hrun; cbn in Hrun.
  - injection Hrun as <-. split; [constructor |]. intros g. split.
    + unfold parameters_in_group. cbn. rewrite app_nil_r. reflexivity.
    + split; [auto |]. intros [H | (e & He & _)]; [exact H |].
      apply elem_of_nil in He. contradiction.
  - apply bind_Ok in Hrun as (specs & Hspecs & Hrun).
    destruct (IH _ _ Hrun) as [Hall Hgroups].
    assert (Hof : specs_of e = specs) by (unfold specs_of; rewrite Hspecs; reflexivity).
    split; [constructor; [congruence | exact Hall] |].
    intros g. destruct (Hgroups g) as [Hlist Hdom].
    rewrite Hlist, Hdom, lookup_extend_group. unfold parameters_in_group.
    rewrite filter_cons. case_decide as Hg.
    + cbn. rewrite Hof, app_assoc. split; [reflexivity |].
      split; [intros _; right; exists e; split; [apply list_elem_of_here | exact Hg] |].
      intros _. left. eauto.
    + split; [reflexivity |]. split.
      * intros [H | (e' & He' & Hg')]; [left; exact H |].
        right. exists e'. split; [apply list_elem_of_further, He' | exact Hg'].
      * intros [H | (e' & He' & Hg')]; [left; exact H |].
        apply elem_of_cons in He' as [-> | He']; [contradiction |].
        right. eauto.
Qed.

Lemma texture_specs_of_Ok (t : Element) (spec : TextureSpec) :
  texture_element_as_dict t = Ok spec -> texture_specs_of t = [spec].
Proof. unfold texture_specs_of. intros ->. reflexivity. Qed.

Lemma scan_textures_spec (ts : list Element) :
  forall grouped m,
    scan_textures grouped ts = Ok m ->
    Forall (fun t => has_color_profile t = true ->
                     exists spec, texture_element_as_dict t = Ok spec) ts /\
    forall g,
      default [] (m !! g) = default [] (grouped !! g) ++ textures_in_group g ts /\
      (is_Some (m !! g) <->
       is_Some (grouped !! g) \/
       exists t, t ∈ ts /\ has_color_profile t = true /\ group_of t = g).
Proof.
  induction ts as [| t ts IH]; intros grouped m Hrun; cbn in Hrun.
  - injection Hrun as <-. split; [constructor |]. intros g. split.
    + unfold textures_in_group. cbn. rewrite app_nil_r. reflexivity.
    + split; [auto |]. intros [H | (t & Ht & _)]; [exact H |].
      apply elem_of_nil in Ht. contradiction.
  - destruct (has_color_profile t) eqn:Hprofile.
    + apply bind_Ok in Hrun as (spec & Hspec & Hrun).
      destruct (IH _ _ Hrun) as [Hall Hgroups].
      split; [constructor; [eauto | exact Hall] |].
      intros g. destruct (Hgroups g) as [Hlist Hdom].
      rewrite Hlist, Hdom, lookup_extend_group. unfold textures_in_group.
      rewrite filter_cons. case_decide as Hg.
      * rewrite decide_True by (split; [exact Hprofile | exact Hg]).
        cbn. rewrite (texture_specs_of_Ok _ _ Hspec), app_assoc.
        split; [reflexivity |].
        split; [intros _; right; exists t; repeat split;
                [apply list_elem_of_here | exact Hprofile | exact Hg] |].
        intros _. left. eauto.
      * rewrite decide_False by (intros [_ Hg']; contradiction).
        split; [reflexivity |]. split.
        -- intros [H | (t' & Ht' & Hp' & Hg')]; [left; exact H |].
           right. exists t'. repeat split; [apply list_elem_of_further, Ht' | exact Hp' | exact Hg'].
        -- intros [H | (t' & Ht' & Hp' & Hg')]; [left; exact H |].
           apply elem_of_cons in Ht' as [-> | Ht']; [contradiction |].
           right. eauto.
    + destruct (IH _ _ Hrun) as [Hall Hgroups].
      split; [constructor; [intros; congruence | exact Hall] |].
      intros g. destruct (Hgroups g) as [Hlist Hdom].
      rewrite Hlist, Hdom. unfold textures_in_group. rewrite filter_cons.
      rewrite decide_False by (intros [Hp _]; congruence).
      split; [reflexivity |]. split.
      * intros [H | (t' & Ht' & Hp' & Hg')]; [left; exact H |].
        right. exists t'. repeat split; [apply list_elem_of_further, Ht' | exact Hp' | exact Hg'].
      * intros [H | (t' & Ht' & Hp' & Hg')]; [left; exact H |].
        apply elem_of_cons in Ht' as [-> | Ht']; [congruence |].
        right. eauto.
Qed.

(** Entries without a colour profile do not take part in the scan. *)
Lemma scan_textures_ignores_unprofiled (ts : list Element) :
  forall grouped,
    scan_textures grouped ts = scan_textures grouped (filter (fun t => has_color_profile t = true) ts).
Proof.
  induction ts as [| t ts IH]; intros grouped; [reflexivity |].
  rewrite filter_cons. cbn. destruct (has_color_profile t) eqn:Hprofile.
  - rewrite decide_True by reflexivity. cbn. rewrite Hprofile.
    destruct (texture_element_as_dict t); cbn; [apply IH | reflexivity].
  - rewrite decide_False by discriminate. apply IH.
Qed.

Lemma has_color_profile_true (t : Element) :
  has_color_profile t = true <-> is_Some (attrib t !! "defaultColorProfile").
Proof. unfold has_color_profile. apply bool_decide_eq_true. Qed.

Lemma grouped_parameters_spec (root : Element) (gp : gmap string (list ParameterSpec)) :
  grouped_parameters root = Ok gp ->
  Forall (fun e => parameter_element_as_dict e = Ok (specs_of e)) (entries root "Parameters") /\
  forall g,
    default [] (gp !! g) = parameters_in_group g (entries root "Parameters") /\
    (is_Some (gp !! g) <-> exists e, e ∈ entries root "Parameters" /\ group_of e = g).
Proof.
  unfold grouped_parameters, entries. destruct (find root "Parameters") as [ps |].
  - intros Hrun. destruct (scan_parameters_spec _ _ _ Hrun) as [Hall Hgroups].
    split; [exact Hall |]. intros g. destruct (Hgroups g) as [Hlist Hdom].
    rewrite Hlist, Hdom, lookup_empty. cbn. split; [reflexivity |].
    split; [intros [[? [=]] | H]; exact H | auto].
  - intros [= <-]. split; [constructor |]. intros g. rewrite lookup_empty.
    split; [reflexivity |].
    split; [intros [? [=]] | intros (e & He & _); apply elem_of_nil in He; contradiction].
Qed.

Lemma grouped_textures_spec (root : Element) (gt : gmap string (list TextureSpec)) :
  grouped_textures root = Ok gt ->
  Forall (fun t => has_color_profile t = true ->
                   exists spec, texture_element_as_dict t = Ok spec)
         (entries root "Textures") /\
  forall g,
    default [] (gt !! g) = textures_in_group g (entries root "Textures") /\
    (is_Some (gt !! g) <->
     exists t, t ∈ entries root "Textures" /\ has_color_profile t = true /\ group_of t = g).
Proof.
  unfold grouped_textures, entries. destruct (find root "Textures") as [ts |].
  - intros Hrun. destruct (scan_textures_spec _ _ _ Hrun) as [Hall Hgroups].
    split; [exact Hall |]. intros g. destruct (Hgroups g) as [Hlist Hdom].
    rewrite Hlist, Hdom, lookup_empty. cbn. split; [reflexivity |].
    split; [intros [[? [=]] | H]; exact H | auto].
  - intros [= <-]. split; [constructor |]. intros g. rewrite lookup_empty.
    split; [reflexivity |].
    split; [intros [? [=]] | intros (e & He & _); apply elem_of_nil in He; contradiction].
Qed.

Lemma elem_of_flat_map {A B : Type} (f : A -> list B) (xs : list A) (y : B) :
  y ∈ flat_map f xs <-> exists x, x ∈ xs /\ y ∈ f x.
Proof.
  rewrite list_elem_of_In, in_flat_map. split; intros (x & Hx & Hy); exists x.
  - split; apply list_elem_of_In; assumption.
  - split; apply list_elem_of_In; assumption.
Qed.

Lemma bucket_of_default {A : Type} (m : gmap string (list A)) (g : string) :
  is_Some (m !! g) -> m !! g = Some (default [] (m !! g)).
Proof. intros [bucket ->]. reflexivity. Qed.

(** A texture entry with a colour profile lands in the bucket of its group. *)
Lemma profiled_texture_bucketed (root : Element) (gt : gmap string (list TextureSpec))
    (t : Element) :
  grouped_textures root = Ok gt ->
  t ∈ entries root "Textures" -> has_color_profile t = true ->
  exists spec bucket,
    texture_element_as_dict t = Ok spec /\ gt !! group_of t = Some bucket /\ spec ∈ bucket.
Proof.
  intros Hrun Hin Hprofile.
  destruct (grouped_textures_spec _ _ Hrun) as [Hall Hgroups].
  rewrite Forall_forall in Hall. destruct (Hall t Hin Hprofile) as [spec Hspec].
  destruct (Hgroups (group_of t)) as [Hlist Hdom].
  exists spec, (default [] (gt !! group_of t)). split; [exact Hspec |].
  split; [apply bucket_of_default, Hdom; eauto |].
  rewrite Hlist. unfold textures_in_group. apply elem_of_flat_map.
  exists t. split.
  - apply list_elem_of_filter. auto.
  - rewrite (texture_specs_of_Ok _ _ Hspec). apply list_elem_of_here.
Qed.

(** Every spec of a texture bucket comes from an entry with a colour
    profile whose group names the bucket. *)
Lemma bucketed_texture_origin (root : Element) (gt : gmap string (list TextureSpec))
    (g : string) (bucket : list TextureSpec) (spec : TextureSpec) :
  grouped_textures root = Ok gt -> gt !! g = Some bucket -> spec ∈ bucket ->
  exists t,
    t ∈ entries root "Textures" /\ is_Some (attrib t !! "defaultColorProfile") /\
    group_of t = g /\ texture_element_as_dict t = Ok spec.
Proof.
  intros Hrun Hbucket Hin.
  destruct (grouped_textures_spec _ _ Hrun) as [_ Hgroups].
  destruct (Hgroups g) as [Hlist _]. rewrite Hbucket in Hlist. cbn in Hlist.
  rewrite Hlist in Hin. unfold textures_in_group in Hin.
  apply elem_of_flat_map in Hin as (t & Ht & Hspec).
  apply list_elem_of_filter in Ht as [[Hprofile Hg] Ht].
  exists t. split; [exact Ht |]. split; [apply has_color_profile_true, Hprofile |].
  split; [exact Hg |]. unfold texture_specs_of in Hspec.
  destruct (texture_element_as_dict t) as [spec' |].
  - apply list_elem_of_singleton in Hspec as ->. reflexivity.
  - apply elem_of_nil in Hspec. contradiction.
Qed.

Lemma grouped_textures_ignores_unprofiled (root : Element) :
  grouped_textures root =
    scan_textures ∅ (filter (fun t => has_color_profile t = true) (entries root "Textures")).
Proof.
  unfold grouped_textures, entries. destruct (find root "Textures") as [ts |].
  - apply scan_textures_ignores_unprofiled.
  - reflexivity.
Qed.

(** C6: when the texture scan succeeds, each bucket holds exactly the
    specs of the entries that carry a colour profile and name that group,
    in order: an entry with the attribute is in the bucket of its group,
    every bucketed spec comes from an entry with the attribute, and
    dropping the entries without it leaves the grouped textures unchanged. *)
Theorem textures_grouped_iff_color_profile (root : Element)
    (gt : gmap string (list TextureSpec)) :
  grouped_textures root = Ok gt ->
  (forall g, default [] (gt !! g) = textures_in_group g (entries root "Textures")) /\
  (forall t, t ∈ entries root "Textures" ->
     is_Some (attrib t !! "defaultColorProfile") ->
     exists spec bucket,
       texture_element_as_dict t = Ok spec /\ gt !! group_of t = Some bucket /\
       spec ∈ bucket) /\
  (forall g bucket spec, gt !! g = Some bucket -> spec ∈ bucket ->
     exists t,
       t ∈ entries root "Textures" /\ is_Some (attrib t !! "defaultColorProfile") /\
       group_of t = g /\ texture_element_as_dict t = Ok spec) /\
  scan_textures ∅ (filter (fun t => has_color_profile t = true) (entries root "Textures"))
    = Ok gt.
Proof.
  intros Hrun. split; [| split; [| split]].
  - intros g. apply (grouped_textures_spec _ _ Hrun).
  - intros t Hin Hprofile.
    apply (profiled_texture_bucketed root gt t Hrun Hin).
    apply has_color_profile_true, Hprofile.
  - intros g bucket spec. apply (bucketed_texture_origin root gt g bucket spec Hrun).
  - rewrite <- grouped_textures_ignores_unprofiled. exact Hrun.
Qed.

Lemma textures_grouped_iff_color_profile_witness :
  grouped_textures sample_descriptor = Ok sample_grouped_textures /\
  scan_textures ∅ (filter (fun t => has_color_profile t = true)
                          (entries sample_descriptor "Textures"))
    = Ok sample_grouped_textures.
Proof.
  assert (Hrun : grouped_textures sample_descriptor = Ok sample_grouped_textures)
    by (vm_compute; reflexivity).
  split; [exact Hrun |].
  apply (textures_grouped_iff_color_profile sample_descriptor sample_grouped_textures Hrun).
Defined.

(** ** Bucketing by group *)

(** C7, as stated, fails for a texture entry that has no group attribute
    and no colour profile: it is not in the bucket ["mandatory"], which
    does not even exist. *)
Lemma ungrouped_texture_not_bucketed :
  ~ (forall (root : Element) (gt : gmap string (list TextureSpec)) (t : Element),
        grouped_textures root = Ok gt ->
        t ∈ entries root "Textures" ->
        attrib t !! "group" = None ->
        exists bucket spec,
          gt !! "mandatory" = Some bucket /\ texture_element_as_dict t = Ok spec /\
          spec ∈ bucket).
Proof.
  intros Hclaim.
  destruct (Hclaim unprofiled_descriptor ∅ (node "Texture" [("name", "mask")] None []))
    as (bucket & spec & Hbucket & _).
  - reflexivity.
  - apply list_elem_of_here.
  - reflexivity.
  - rewrite lookup_empty in Hbucket. discriminate.
Qed.

Lemma group_of_explicit (e : Element) :
  (attrib e !! "group" = None -> group_of e = "mandatory") /\
  (forall g, attrib e !! "group" = Some g -> group_of e = g).
Proof.
  unfold group_of, get_default.
  split; [intros -> | intros g ->]; reflexivity.
Qed.

(** C7 (amended): the group of an entry is its [group] attribute, or
    ["mandatory"] without one.  Every parameter entry, and every texture
    entry that carries a colour profile, is bucketed into its group: the
    bucket exists and contains the entry's specs, and each bucket consists
    of exactly the specs of the entries of that group, in order. *)
Theorem entries_bucketed_by_group (root : Element)
    (gp : gmap string (list ParameterSpec)) (gt : gmap string (list TextureSpec)) :
  grouped_parameters root = Ok gp ->
  grouped_textures root = Ok gt ->
  (forall e,
     (attrib e !! "group" = None -> group_of e = "mandatory") /\
     (forall g, attrib e !! "group" = Some g -> group_of e = g)) /\
  (forall p, p ∈ entries root "Parameters" ->
     exists specs bucket,
       parameter_element_as_dict p = Ok specs /\ gp !! group_of p = Some bucket /\
       forall spec, spec ∈ specs -> spec ∈ bucket) /\
  (forall g, default [] (gp !! g) = parameters_in_group g (entries root "Parameters")) /\
  (forall t, t ∈ entries root "Textures" ->
     is_Some (attrib t !! "defaultColorProfile") ->
     exists spec bucket,
       texture_element_as_dict t = Ok spec /\ gt !! group_of t = Some bucket /\
       spec ∈ bucket) /\
  (forall g, default [] (gt !! g) = textures_in_group g (entries root "Textures")).
Proof.
  intros Hgp Hgt.
  destruct (grouped_parameters_spec _ _ Hgp) as [Hall Hgroups].
  split; [exact group_of_explicit |]. split; [| split; [| split]].
  - intros p Hin. rewrite Forall_forall in Hall.
    destruct (Hgroups (group_of p)) as [Hlist Hdom].
    exists (specs_of p), (default [] (gp !! group_of p)).
    split; [apply Hall, Hin |].
    split; [apply bucket_of_default, Hdom; eauto |].
    intros spec Hspec. rewrite Hlist. unfold parameters_in_group.
    apply elem_of_flat_map. exists p. split; [| exact Hspec].
    apply list_elem_of_filter. auto.
  - intros g. apply Hgroups.
  - intros t Hin Hprofile.
    apply (profiled_texture_bucketed root gt t Hgt Hin).
    apply has_color_profile_true, Hprofile.
  - intros g. apply (grouped_textures_spec _ _ Hgt).
Qed.

Lemma entries_bucketed_by_group_witness :
  (forall g, default [] (sample_grouped_parameters !! g)
             = parameters_in_group g (entries sample_descriptor "Parameters")) /\
  (forall g, default [] (sample_grouped_textures !! g)
             = textures_in_group g (entries sample_descriptor "Textures")).
Proof.
  assert (Hgp : grouped_parameters sample_descriptor = Ok sample_grouped_parameters)
    by (vm_compute; reflexivity).
  assert (Hgt : grouped_textures sample_descriptor = Ok sample_grouped_textures)
    by (vm_compute; reflexivity).
  pose proof (entries_bucketed_by_group sample_descriptor _ _ Hgp Hgt)
    as (_ & _ & Hp & _ & Ht).
  split; assumption.
Defined.

(** ** Operators on the host state *)

Lemma alter_last_snoc {A : Type} (f : A -> A) (xs : list A) (x : A) :
  alter_last f (xs ++ [x]) = xs ++ [f x].
Proof.
  induction xs as [| y xs IH]; [reflexivity |].
  cbn [app alter_last]. rewrite IH. destruct xs; reflexivity.
Qed.

Section HostFacts.

Context {F : Type} (py_float : string -> option F) (zero : F).
Context (xml_parse : string -> option Element).

Abbreviation Attrs := (@I3DMaterialShader F).
Abbreviation World := (@World F).
(** Inside this section [parameter_entry] stands for the entry made with
    the section's [py_float] and [zero]. *)
Abbreviation parameter_entry := (parameter_entry py_float zero).

Lemma clear_attributes_run (a : Attrs) : clear_attributes a = (Ok tt, cleared a).
Proof.
  unfold clear_attributes, cleared, mbind, A_bind, a_bind, a_read, a_modify, a_ret.
  destruct a as [sh cs v vs ps ts]. cbn [shader].
  destruct (decide (sh = shader_custom)) as [-> | Hne]; cbn.
  - rewrite decide_True by apply list_elem_of_here. reflexivity.
  - rewrite decide_True by apply list_elem_of_further, list_elem_of_here.
    reflexivity.
Qed.

Lemma set_materials_id (w : World) : set_materials (materials w) w = w.
Proof. destruct w; reflexivity. Qed.

Lemma on_read {X : Type} (proj : Attrs -> X) (m : string) (a : Attrs) (w : World) :
  materials w !! m = Some a -> on m (a_read proj) w = (Ok (proj a), w).
Proof.
  intros Hm. unfold on, a_read. rewrite Hm.
  rewrite (insert_id _ _ _ Hm), set_materials_id. reflexivity.
Qed.

Lemma on_run {X : Type} (c : A_ X) (m : string) (a : Attrs) (w : World) :
  materials w !! m = Some a ->
  on m c w = (fst (c a), set_materials (<[m := snd (c a)]> (materials w)) w).
Proof. intros Hm. unfold on. rewrite Hm. destruct (c a); reflexivity. Qed.

Lemma clear_shader_run (m : string) (a : Attrs) (w : World) :
  active_material w = Some m -> materials w !! m = Some a ->
  clear_shader w = (Ok tt, set_materials (<[m := cleared a]> (materials w)) w).
Proof.
  intros Hactive Hm. unfold clear_shader, mbind, M_bind, m_bind, active_attributes.
  unfold active_material in Hactive.
  destruct (context_object w) as [[m' |] |]; try discriminate.
  injection Hactive as ->.
  rewrite (on_run _ _ _ _ Hm), clear_attributes_run. reflexivity.
Qed.

Lemma clear_shader_no_object (w : World) :
  context_object w = None ->
  clear_shader w = (Raise (AttributeError "active_material"), w).
Proof.
  intros Hnone. unfold clear_shader, mbind, M_bind, m_bind, active_attributes.
  rewrite Hnone. reflexivity.
Qed.


Lemma load_custom_shader_variation_target (material_name m : string) (w : World) :
  acts_on material_name w m ->
  load_custom_shader_variation py_float zero xml_parse material_name w
  = load_custom_shader_variation_body py_float zero xml_parse m w.
Proof.
  unfold load_custom_shader_variation. intros [(Hne & -> & Hin) | (-> & Hactive)].
  - rewrite decide_True by exact Hne. rewrite decide_True by exact Hin. reflexivity.
  - rewrite decide_False by (intros H; apply H; reflexivity).
    rewrite Hactive. reflexivity.
Qed.



(** *** Filling the collections *)

Lemma push_parameters_nil (a : Attrs) : push_parameters [] a = a.
Proof. destruct a. unfold push_parameters. cbn. rewrite app_nil_r. reflexivity. Qed.

Lemma push_textures_nil (a : Attrs) : push_textures [] a = a.
Proof. destruct a. unfold push_textures. cbn. rewrite app_nil_r. reflexivity. Qed.

Lemma push_parameters_app (ps qs : list (@I3DShaderParameter F)) (a : Attrs) :
  push_parameters qs (push_parameters ps a) = push_parameters (ps ++ qs) a.
Proof. destruct a. unfold push_parameters. cbn. rewrite app_assoc. reflexivity. Qed.

Lemma push_textures_app (ts us : list I3DShaderTexture) (a : Attrs) :
  push_textures us (push_textures ts a) = push_textures (ts ++ us) a.
Proof. destruct a. unfold push_textures. cbn. rewrite app_assoc. reflexivity. Qed.

Lemma push_textures_parameters (ts : list I3DShaderTexture)
    (ps : list (@I3DShaderParameter F)) (a : Attrs) :
  push_parameters ps (push_textures ts a) = push_textures ts (push_parameters ps a).
Proof. destruct a. reflexivity. Qed.

Lemma a_bind_modify {Y : Type} (f : Attrs -> Attrs) (k : unit -> A_ Y) (a : Attrs) :
  a_bind (a_modify f) k a = k tt (f a).
Proof. reflexivity. Qed.

Lemma a_bind_lift {X Y : Type} (r : result X) (k : X -> A_ Y) (a : Attrs) :
  a_bind (a_lift r) k a = match r with Ok x => k x a | Raise e => (Raise e, a) end.
Proof. destruct r; reflexivity. Qed.

Lemma a_bind_read {X Y : Type} (proj : Attrs -> X) (k : X -> A_ Y) (a : Attrs) :
  a_bind (a_read proj) k a = k (proj a) a.
Proof. reflexivity. Qed.

Ltac step :=
  repeat (first [ rewrite a_bind_modify | rewrite a_bind_lift | rewrite a_bind_read ];
          cbv beta).

Ltac fields :=
  cbn [shader custom_shader variation variations shader_parameters shader_textures
       set_shader set_custom_shader set_variation set_variations
       set_shader_parameters set_shader_textures].

Lemma add_parameter_run (spec : ParameterSpec) (a : Attrs) :
  match parameter_entry spec with
  | Ok p => add_parameter py_float zero spec a = (Ok tt, push_parameters [p] a)
  | Raise e => fst (add_parameter py_float zero spec a) = Raise e
  end.
Proof.
  unfold parameter_entry, add_parameter, mbind, A_bind, param_set, push_parameters.
  step. fields. rewrite !alter_last_snoc.
  destruct (floats py_float (p_default_value spec)) as [data | e];
    cbn [result_bind]; [| reflexivity].
  repeat case_decide.
  - step. destruct (py_index data 0) as [d0 | e]; cbn [result_bind]; [| reflexivity].
    unfold a_modify. fields. rewrite alter_last_snoc. reflexivity.
  - unfold a_modify. fields. rewrite alter_last_snoc. reflexivity.
  - unfold a_modify. fields. rewrite alter_last_snoc. reflexivity.
  - unfold a_modify. fields. rewrite alter_last_snoc. reflexivity.
  - reflexivity.
Qed.

Lemma add_texture_run (spec : TextureSpec) (a : Attrs) :
  add_texture spec a = (Ok tt, push_textures [texture_entry spec] a).
Proof.
  unfold add_texture, mbind, A_bind, tex_set, push_textures.
  step. unfold a_modify. fields. rewrite !alter_last_snoc. reflexivity.
Qed.

Lemma for_cons {X : Type} (body : X -> A_ unit) (x : X) (rest : list X) (a : Attrs) :
  for_ body (x :: rest) a =
    match body x a with
    | (Ok _, a1) => for_ body rest a1
    | (Raise e, a1) => (Raise e, a1)
    end.
Proof. reflexivity. Qed.

(** A loop whose body appends one entry per element, or raises. *)
Lemma for_run {X E : Type} (body : X -> A_ unit) (pure : X -> result E)
    (push : list E -> Attrs -> Attrs) :
  (forall a, push [] a = a) ->
  (forall es fs a, push fs (push es a) = push (es ++ fs) a) ->
  (forall x a, match pure x with
               | Ok e => body x a = (Ok tt, push [e] a)
               | Raise e => fst (body x a) = Raise e
               end) ->
  forall xs a,
    match for_each pure xs with
    | Ok es => for_ body xs a = (Ok tt, push es a)
    | Raise e => fst (for_ body xs a) = Raise e
    end.
Proof.
  intros Hnil Happ Hbody. induction xs as [| x rest IH]; intros a.
  - cbn. rewrite Hnil. reflexivity.
  - rewrite for_cons. cbn [for_each]. specialize (Hbody x a).
    destruct (pure x) as [e | err]; cbn [mbind result_bind].
    + rewrite Hbody. specialize (IH (push [e] a)).
      destruct (for_each pure rest) as [es | err]; cbn [mbind result_bind].
      * rewrite IH, Happ. reflexivity.
      * exact IH.
    + destruct (body x a) as [[[] | err'] a1]; cbn in Hbody; [discriminate |].
      cbn. exact Hbody.
Qed.

Lemma for_add_parameter_run (specs : list ParameterSpec) (a : Attrs) :
  match for_each parameter_entry specs with
  | Ok ps => for_ (add_parameter py_float zero) specs a = (Ok tt, push_parameters ps a)
  | Raise e => fst (for_ (add_parameter py_float zero) specs a) = Raise e
  end.
Proof.
  apply (for_run (add_parameter py_float zero) parameter_entry push_parameters).
  - apply push_parameters_nil.
  - apply push_parameters_app.
  - apply add_parameter_run.
Qed.

Lemma for_add_texture_run (specs : list TextureSpec) (a : Attrs) :
  for_ add_texture specs a = (Ok tt, push_textures (map texture_entry specs) a).
Proof.
  pose proof (for_run add_texture (fun s => Ok (texture_entry s)) push_textures
                push_textures_nil push_textures_app) as Hrun.
  specialize (Hrun (fun s a => add_texture_run s a) specs a).
  rewrite (for_each_total _ texture_entry) in Hrun; [exact Hrun |].
  apply Forall_forall. reflexivity.
Qed.

Lemma add_group_run (gp : gmap string (list ParameterSpec))
    (gt : gmap string (list TextureSpec)) (g : string) (a : Attrs) :
  match for_each parameter_entry (default [] (gp !! g)) with
  | Ok ps =>
      add_group py_float zero gp gt g a =
        (Ok tt, push_textures (map texture_entry (default [] (gt !! g)))
                              (push_parameters ps a))
  | Raise e => fst (add_group py_float zero gp gt g a) = Raise e
  end.
Proof.
  unfold add_group, mbind, A_bind, a_bind.
  destruct (gp !! g) as [specs |]; cbn [from_option id].
  - pose proof (for_add_parameter_run specs a) as Hps.
    destruct (for_each parameter_entry specs) as [ps | e].
    + rewrite Hps. destruct (gt !! g) as [texs |]; cbn [from_option id].
      * apply for_add_texture_run.
      * unfold a_ret. cbn. rewrite push_textures_nil. reflexivity.
    + destruct (for_ _ specs a) as [[[] | e'] a1]; cbn in Hps; [discriminate |].
      cbn. exact Hps.
  - cbn. rewrite push_parameters_nil. destruct (gt !! g) as [texs |]; cbn [from_option id].
    + apply for_add_texture_run.
    + unfold a_ret. cbn. rewrite push_textures_nil. reflexivity.
Qed.

Lemma for_each_app {A B : Type} (f : A -> result B) (xs ys : list A) :
  for_each f (xs ++ ys) =
    (xs' ← for_each f xs; ys' ← for_each f ys; Ok (xs' ++ ys')).
Proof.
  induction xs as [| x xs IH]; cbn.
  - destruct (for_each f ys); reflexivity.
  - destruct (f x); cbn; [| reflexivity]. rewrite IH.
    destruct (for_each f xs); cbn; [| reflexivity].
    destruct (for_each f ys); reflexivity.
Qed.

Lemma for_add_group_run (gp : gmap string (list ParameterSpec))
    (gt : gmap string (list TextureSpec)) (groups : list string) :
  forall a,
    match for_each parameter_entry (selected gp groups) with
    | Ok ps =>
        for_ (add_group py_float zero gp gt) groups a =
          (Ok tt, push_textures (map texture_entry (selected gt groups))
                                (push_parameters ps a))
    | Raise e => fst (for_ (add_group py_float zero gp gt) groups a) = Raise e
    end.
Proof.
  induction groups as [| g rest IH]; intros a.
  - cbn. rewrite push_parameters_nil, push_textures_nil. reflexivity.
  - rewrite for_cons. unfold selected. cbn [flat_map]. rewrite for_each_app.
    fold (selected gp rest). fold (selected gt rest).
    pose proof (add_group_run gp gt g a) as Hg.
    destruct (for_each parameter_entry (default [] (gp !! g))) as [ps | e];
      cbn [mbind result_bind].
    + rewrite Hg.
      specialize (IH (push_textures (map texture_entry (default [] (gt !! g)))
                                    (push_parameters ps a))).
      destruct (for_each parameter_entry (selected gp rest)) as [qs | e];
        cbn [mbind result_bind].
      * rewrite IH, map_app, push_textures_parameters, push_textures_app,
          push_parameters_app. reflexivity.
      * exact IH.
    + destruct (add_group _ _ gp gt g a) as [[[] | e'] a1]; cbn in Hg; [discriminate |].
      cbn. exact Hg.
Qed.

Lemma load_variation_run (root : Element) (a : Attrs) :
  load_variation py_float zero root a =
    match grouped_parameters root with
    | Raise e => (Raise e, emptied a)
    | Ok gp =>
        match grouped_textures root with
        | Raise e => (Raise e, emptied a)
        | Ok gt =>
            match parameter_groups root (variation a) with
            | Raise e => (Raise e, emptied a)
            | Ok groups => for_ (add_group py_float zero gp gt) groups (emptied a)
            end
        end
    end.
Proof.
  unfold load_variation, mbind, A_bind. step. fold (emptied a).
  destruct (grouped_parameters root) as [gp | e]; [| reflexivity].
  step. destruct (grouped_textures root) as [gt | e]; [| reflexivity].
  step. replace (variation (emptied a)) with (variation a) by reflexivity.
  destruct (parameter_groups root (variation a)); reflexivity.
Qed.

Lemma load_variation_body_parsed (m : string) (a : Attrs) (root : Element) (w : World) :
  materials w !! m = Some a ->
  xml_parse (shader_path (data_path w) a) = Some root ->
  load_custom_shader_variation_body py_float zero xml_parse m w =
    (match fst (load_variation py_float zero root a) with
     | Ok _ => Ok FINISHED
     | Raise e => Raise e
     end,
     set_materials (<[m := snd (load_variation py_float zero root a)]> (materials w)) w).
Proof.
  intros Hm Hparse. unfold load_custom_shader_variation_body, mbind, M_bind, m_bind.
  rewrite (on_read _ _ _ _ Hm), Hparse, (on_run _ _ _ _ Hm).
  destruct (load_variation py_float zero root a) as [[[] | e] a1]; reflexivity.
Qed.

Lemma find_variation_Some (vs v : Element) (name : string) :
  find_variation vs name = Some v ->
  v ∈ children vs /\ tag v = "Variation" /\ attrib v !! "name" = Some name.
Proof.
  unfold find_variation. intros Hfind.
  destruct (list_find _ (children vs)) as [[i v'] |] eqn:Hlist; [| discriminate].
  cbn in Hfind. injection Hfind as ->.
  apply list_find_Some in Hlist as (Hi & [Htag Hname] & _).
  split; [apply list_elem_of_lookup; eauto |]. split; assumption.
Qed.

Lemma parameter_groups_no_variation (root : Element) :
  parameter_groups root shader_no_variation = Ok ["mandatory"; "base"].
Proof. reflexivity. Qed.

Lemma parameter_groups_Ok (root : Element) (current : string) (groups : list string) :
  parameter_groups root current = Ok groups ->
  (current = shader_no_variation -> groups = ["mandatory"; "base"]) /\
  (current <> shader_no_variation ->
   exists vs v,
     find root "Variations" = Some vs /\ find_variation vs current = Some v /\
     groups = "mandatory" :: py_split (get_default v "groups" "")).
Proof.
  unfold parameter_groups. case_decide as Hcur.
  - destruct (find root "Variations") as [vs |]; [| discriminate].
    destruct (find_variation vs current) as [v |] eqn:Hv; [| discriminate].
    intros [= <-]. split; [contradiction |]. intros _. exists vs, v.
    split; [reflexivity |]. split; [exact Hv | reflexivity].
  - intros [= <-]. split; [reflexivity | contradiction].
Qed.

(** C10: with a variation other than ['None'] selected and a descriptor
    that has no [Variations] element, or none of whose [Variation]
    children carries that name, the variation-loading operator raises:
    the exception leaves [execute], and it is the attribute error of the
    missing element whenever the two scans before it went through. *)
Theorem variation_load_raises_without_variation
    (material_name m : string) (a : Attrs) (root : Element) (w : World) :
  acts_on material_name w m ->
  materials w !! m = Some a ->
  xml_parse (shader_path (data_path w) a) = Some root ->
  variation a <> shader_no_variation ->
  (find root "Variations" = None \/
   exists vs, find root "Variations" = Some vs /\
              quote_free (variation a) = true /\
              find_variation vs (variation a) = None) ->
  exists e,
    fst (load_custom_shader_variation py_float zero xml_parse material_name w) = Raise e /\
    (forall gp gt, grouped_parameters root = Ok gp -> grouped_textures root = Ok gt ->
                   e = AttributeError "find" \/ e = AttributeError "attrib").
Proof.
  intros Htarget Hm Hparse Hcur Hmissing.
  rewrite (load_custom_shader_variation_target _ _ _ Htarget).
  rewrite (load_variation_body_parsed _ _ _ _ Hm Hparse). cbn [fst].
  rewrite load_variation_run.
  assert (Hgroups : parameter_groups root (variation a) = Raise (AttributeError "find") \/
                    parameter_groups root (variation a) = Raise (AttributeError "attrib")).
  { unfold parameter_groups. rewrite decide_True by exact Hcur.
    destruct Hmissing as [-> | (vs & -> & _ & ->)]; auto. }
  destruct (grouped_parameters root) as [gp | e1].
  - destruct (grouped_textures root) as [gt | e2].
    + destruct Hgroups as [-> | ->]; cbn; eexists; (split; [reflexivity | auto]).
    + cbn. exists e2. split; [reflexivity | discriminate].
  - cbn. exists e1. split; [reflexivity | discriminate].
Qed.

(** C2: whenever the variation-loading operator completes on a parsed
    descriptor, the activated groups are [mandatory; base] when the
    material's variation is ['None'], and [mandatory] followed by the
    space-separated [groups] of the [Variation] element of that name
    otherwise; the material's parameters (resp. textures) are then the
    entries made from the specs of the activated groups, group after
    group in the order listed, each group in declaration order.  The
    variation name is taken without an apostrophe, where [find_variation]
    reads the path expression as the library does. *)
Theorem variation_selects_groups
    (material_name m : string) (a : Attrs) (root : Element) (w w' : World)
    (r : OperatorResult) :
  acts_on material_name w m ->
  materials w !! m = Some a ->
  xml_parse (shader_path (data_path w) a) = Some root ->
  quote_free (variation a) = true ->
  load_custom_shader_variation py_float zero xml_parse material_name w = (Ok r, w') ->
  exists groups a',
    parameter_groups root (variation a) = Ok groups /\
    (variation a = shader_no_variation -> groups = ["mandatory"; "base"]) /\
    (variation a <> shader_no_variation ->
     exists vs v,
       find root "Variations" = Some vs /\ find_variation vs (variation a) = Some v /\
       tag v = "Variation" /\ attrib v !! "name" = Some (variation a) /\
       groups = "mandatory" :: py_split (get_default v "groups" "")) /\
    materials w' !! m = Some a' /\
    for_each parameter_entry
             (flat_map (fun g => parameters_in_group g (entries root "Parameters")) groups)
      = Ok (shader_parameters a') /\
    shader_textures a'
      = map texture_entry
            (flat_map (fun g => textures_in_group g (entries root "Textures")) groups).
Proof.
  intros Htarget Hm Hparse _ Hrun.
  rewrite (load_custom_shader_variation_target _ _ _ Htarget) in Hrun.
  rewrite (load_variation_body_parsed _ _ _ _ Hm Hparse) in Hrun.
  rewrite load_variation_run in Hrun.
  destruct (grouped_parameters root) as [gp | e] eqn:Hgp; [| discriminate].
  destruct (grouped_textures root) as [gt | e] eqn:Hgt; [| discriminate].
  destruct (parameter_groups root (variation a)) as [groups | e] eqn:Hgroups;
    [| discriminate].
  pose proof (for_add_group_run gp gt groups (emptied a)) as Hloop.
  assert (Hps : selected gp groups
                = flat_map (fun g => parameters_in_group g (entries root "Parameters")) groups).
  { apply flat_map_ext. intros g. apply (grouped_parameters_spec _ _ Hgp). }
  assert (Hts : selected gt groups
                = flat_map (fun g => textures_in_group g (entries root "Textures")) groups).
  { apply flat_map_ext. intros g. apply (grouped_textures_spec _ _ Hgt). }
  rewrite Hps, Hts in Hloop.
  destruct (for_each parameter_entry _) as [ps | e] eqn:Hentries.
  - rewrite Hloop in Hrun. cbn [fst snd] in Hrun. injection Hrun as _ <-.
    destruct (parameter_groups_Ok _ _ _ Hgroups) as [Hnone Hnamed].
    eexists groups, _. split; [reflexivity |]. split; [exact Hnone |]. split.
    { intros Hcur. destruct (Hnamed Hcur) as (vs & v & Hvs & Hv & ->).
      destruct (find_variation_Some _ _ _ Hv) as (_ & Htag & Hname).
      exists vs, v. auto 10. }
    split; [apply lookup_insert_eq |].
    split; [rewrite Hentries; reflexivity | reflexivity].
  - destruct (for_ _ groups (emptied a)) as [[[] | e'] a1]; cbn in Hloop;
      [discriminate |]. cbn in Hrun. discriminate.
Qed.


End HostFacts.

(** ** Sample runs *)



Lemma variation_load_raises_without_variation_witness :
  exists e,
    fst (load_custom_shader_variation sample_float 0%nat sample_disk ""
           (world_of (stock_material "glowing") active)) = Raise e /\
    (forall gp gt,
        grouped_parameters sample_descriptor = Ok gp ->
        grouped_textures sample_descriptor = Ok gt ->
        e = AttributeError "find" \/ e = AttributeError "attrib").
Proof.
  apply (variation_load_raises_without_variation sample_float 0%nat sample_disk
           "" "Mat" (stock_material "glowing") sample_descriptor).
  - right. split; reflexivity.
  - reflexivity.
  - reflexivity.
  - discriminate.
  - right. eexists. split; [reflexivity |]. split; reflexivity.
Defined.

Example missing_variation_run :
  fst (load_custom_shader_variation sample_float 0%nat sample_disk ""
         (world_of (stock_material "glowing") active))
  = Raise (AttributeError "attrib").
Proof. vm_compute. reflexivity. Qed.

Example missing_variations_element_run :
  fst (load_custom_shader_variation sample_float 0%nat
         (fun _ => Some (node "CustomShader" [] None [])) ""
         (world_of (stock_material "waving") active))
  = Raise (AttributeError "find").
Proof. vm_compute. reflexivity. Qed.

Lemma variation_selects_groups_witness :
  exists groups a',
    parameter_groups sample_descriptor "waving" = Ok groups /\
    groups = ["mandatory"; "extra"] /\
    materials waving_loaded !! "Mat" = Some a' /\
    map sp_name (shader_parameters a') = ["alpha"; "uv"; "wave0"; "wave1"] /\
    map st_name (shader_textures a') = ["diffuse"; "detail"].
Proof.
  destruct (variation_selects_groups sample_float 0%nat sample_disk "" "Mat"
              (stock_material "waving") sample_descriptor
              (world_of (stock_material "waving") active) waving_loaded FINISHED)
    as (groups & a' & Hgroups & _ & _ & Hm & Hps & Hts).
  - right. split; reflexivity.
  - reflexivity.
  - reflexivity.
  - reflexivity.
  - vm_compute. reflexivity.
  - exists groups, a'. split; [exact Hgroups |].
    assert (Hg : groups = ["mandatory"; "extra"])
      by (vm_compute in Hgroups; congruence).
    split; [exact Hg |]. split; [exact Hm |]. subst groups.
    set (made := for_each _ _) in Hps. vm_compute in (value of made). subst made.
    injection Hps as Hps. rewrite <- Hps, Hts.
    split; vm_compute; reflexivity.
Defined.

Example no_variation_run :
  (fun w => (fun a => (map sp_name (shader_parameters a), map st_name (shader_textures a)))
              <$> (materials w !! "Mat"))
    (snd (load_custom_shader_variation sample_float 0%nat sample_disk ""
            (world_of (stock_material "None") active)))
  = Some (["alpha"; "uv"; "tint"], ["diffuse"]).
Proof. vm_compute. reflexivity. Qed.

(** * Further properties of the module *)

(** ** Default values: the exact shape *)

(** For a known type of arity [n], a default with more than [n] tokens is
    cut to its first [n - 1] tokens followed by one ["0"]; a default with
    at most [n] tokens is kept and padded with ["0"] up to [n]. *)
Theorem parse_default_shape (ty : string) (n : Z) (default : option string) :
  (ty, n) ∈ declared_arity ->
  parse_default (type_length_of ty) default =
    Ok (if py_len (tokens_of default) >? n
        then take (Z.to_nat (n - 1)) (tokens_of default) ++ ["0"]
        else tokens_of default
               ++ replicate (Z.to_nat (n - py_len (tokens_of default))) "0").
Proof.
  intros Harity. destruct (declared_arity_type_length _ _ Harity) as [-> Hn].
  apply parse_default_assigned. lia.
Qed.

Lemma parse_default_shape_witness :
  parse_default (type_length_of "float3") (Some "1 2 3 4") = Ok ["1"; "2"; "0"].
Proof.
  apply (parse_default_shape "float3" 3 (Some "1 2 3 4")).
  unfold declared_arity. do 2 apply list_elem_of_further. apply list_elem_of_here.
Defined.

(** ** The shader-name cache and the shader enum *)

Module ShaderEnumFacts.
Import ShaderCache ShaderEnum.

Lemma static_items_prefix_not_no_shaders (rest : list item) :
  STATIC_ITEMS ++ rest <> no_shaders.
Proof. intros H. apply (f_equal length) in H. cbn in H. lia. Qed.

(** A query answers "No shaders found" exactly when the cache is falsy and
    the shader directory is unavailable (empty data path or no
    directory); in that case the cache is left as it was. *)
Theorem no_shaders_iff_unavailable (disk : Disk) (s : Session) :
  (fst (shader_items_update disk s) = no_shaders <->
   truthy (SHADER_CACHE s) = false /\
   (fs_data_path disk = "" \/ shader_dir disk = None)) /\
  (fst (shader_items_update disk s) = no_shaders ->
   SHADER_CACHE (snd (shader_items_update disk s)) = SHADER_CACHE s).
Proof.
  unfold shader_items_update.
  destruct (truthy (SHADER_CACHE s)) eqn:Htruthy; cbn [fst snd].
  - split.
    + split; [intros H; apply static_items_prefix_not_no_shaders in H; contradiction |].
      intros [[=] _].
    + intros _. reflexivity.
  - case_decide as Hpath; cbn [fst snd].
    + split; [split; auto | reflexivity].
    + destruct (shader_dir disk) as [files |]; cbn [fst snd].
      * split.
        -- split; [intros H; apply static_items_prefix_not_no_shaders in H; contradiction |].
           intros [_ [H | [=]]]. contradiction.
        -- intros H. apply static_items_prefix_not_no_shaders in H. contradiction.
      * split; [split; auto | reflexivity].
Qed.

(** The first scan that finds shader files fixes the answer for the rest
    of the session: it returns the static items followed by one item per
    file, and every later query returns the same items without another
    file-system access. *)
Theorem first_scan_fixes_items (disk : Disk) (s : Session) (files : list string)
    (later : list Disk) :
  truthy (SHADER_CACHE s) = false ->
  fs_data_path disk <> "" ->
  shader_dir disk = Some files ->
  files <> [] ->
  let items := STATIC_ITEMS ++ map (fun f => (f, f, "Shader")) files in
  let s1 := snd (shader_items_update disk s) in
  fst (shader_items_update disk s) = items /\
  fs_log s1 = fs_log s ++ [Exists; Glob] /\
  queries later s1 = (map (fun _ => items) later, s1).
Proof.
  intros Htruthy Hpath Hdir Hfiles items s1.
  assert (Hrun : shader_items_update disk s =
                 (items, mkSession (Some (map (fun f => (f, f, "Shader")) files))
                                   ((fs_log s ++ [Exists]) ++ [Glob]))).
  { unfold shader_items_update. rewrite Htruthy, decide_False by exact Hpath.
    rewrite Hdir. reflexivity. }
  subst s1. rewrite Hrun. cbn [fst snd].
  split; [reflexivity |]. split; [cbn; rewrite <- app_assoc; reflexivity |].
  induction later as [| d rest IH]; [reflexivity |].
  cbn [queries map]. unfold shader_items_update at 1. cbn [SHADER_CACHE].
  destruct files as [| f files']; [contradiction |].
  cbn [map truthy]. cbn [map] in IH. rewrite IH. reflexivity.
Qed.

Lemma first_scan_fixes_items_witness :
  fst (shader_items_update two_shaders (mkSession None []))
    = STATIC_ITEMS ++ [("vehicleShader", "vehicleShader", "Shader");
                       ("tileShader", "tileShader", "Shader")] /\
  fs_log warm = [Exists; Glob] /\
  queries [moved_away] warm
    = ([STATIC_ITEMS ++ [("vehicleShader", "vehicleShader", "Shader");
                         ("tileShader", "tileShader", "Shader")]], warm).
Proof.
  apply (first_scan_fixes_items two_shaders (mkSession None [])
           ["vehicleShader"; "tileShader"] [moved_away]).
  - reflexivity.
  - discriminate.
  - reflexivity.
  - discriminate.
Defined.

Lemma default_index_static (rest : list item) : default_index (STATIC_ITEMS ++ rest) = 0%nat.
Proof. reflexivity. Qed.

(** A material whose shader was never set reads as index 0, whatever the
    disk and the cache hold. *)
Theorem unset_shader_reads_zero (disk : Disk) (s : Session) :
  fst (shader_getter None disk s) = 0%nat.
Proof.
  unfold shader_getter, shader_items_update.
  destruct (truthy (SHADER_CACHE s)); [reflexivity |].
  case_decide; [reflexivity |].
  destruct (shader_dir disk); reflexivity.
Qed.

End ShaderEnumFacts.

(** ** More on the operators *)

Ltac run_attr :=
  repeat (first [ rewrite a_bind_modify | rewrite a_bind_lift | rewrite a_bind_read ];
          cbv beta).

Ltac proj_fields :=
  cbn [shader custom_shader variation variations shader_parameters shader_textures
       set_shader set_custom_shader set_variation set_variations
       set_shader_parameters set_shader_textures].

Section OperatorFacts.

Context {F : Type} (py_float : string -> option F) (zero : F).
Context (xml_parse : string -> option Element).
Context (render : forall X : Type, X -> string).







Lemma m_bind_finished {X : Type} (c : @M F X) (w : @World F) :
  fst (m_bind c (fun _ => m_ret FINISHED) w) <> Ok CANCELLED.
Proof. unfold m_bind, m_ret. destruct (c w) as [[x | e] w1]; cbn; discriminate. Qed.

Lemma m_bind_not_cancelled {X : Type} (c : @M F X) (k : X -> @M F OperatorResult)
    (w : @World F) :
  (forall x w1, fst (k x w1) <> Ok CANCELLED) ->
  fst (m_bind c k w) <> Ok CANCELLED.
Proof.
  intros Hk. unfold m_bind. destruct (c w) as [[x | e] w1]; [apply Hk | cbn; discriminate].
Qed.

Lemma load_custom_shader_body_not_cancelled (m : string) (w : @World F) :
  fst (load_custom_shader_body xml_parse m w) <> Ok CANCELLED.
Proof.
  unfold load_custom_shader_body, mbind, M_bind.
  apply m_bind_not_cancelled. intros path w1.
  apply m_bind_not_cancelled. intros file w2.
  apply m_bind_finished.
Qed.

Lemma load_custom_shader_variation_body_not_cancelled (m : string) (w : @World F) :
  fst (load_custom_shader_variation_body py_float zero xml_parse m w) <> Ok CANCELLED.
Proof.
  unfold load_custom_shader_variation_body, mbind, M_bind.
  apply m_bind_not_cancelled. intros path w1.
  apply m_bind_finished.
Qed.

(** An operator that returns [CANCELLED] has touched neither the materials
    nor the standard output: it has only appended one [ERROR] report.
    The variation operator cancels for an unknown material name only; the
    shader operator also when there is no active material. *)
Theorem cancelled_operator_only_reports (material_name : string) (w w' : @World F) :
  (load_custom_shader xml_parse material_name w = (Ok CANCELLED, w') ->
   materials w' = materials w /\ stdout w' = stdout w /\
   context_object w' = context_object w /\
   exists message, reports w' = reports w ++ [("ERROR", message)]) /\
  (load_custom_shader_variation py_float zero xml_parse material_name w = (Ok CANCELLED, w') ->
   material_name <> "" /\ materials w !! material_name = None /\
   materials w' = materials w /\ stdout w' = stdout w /\
   reports w' = reports w ++ [("ERROR", "Material '" +:+ material_name +:+ "' not found.")]).
Proof.
  split.
  - unfold load_custom_shader. case_decide as Hname.
    + case_decide as Hin.
      * intros Hrun. exfalso.
        apply (load_custom_shader_body_not_cancelled material_name w).
        rewrite Hrun. reflexivity.
      * intros [= <-]. cbn. eauto 10.
    + destruct (active_material w) as [m |].
      * intros Hrun. exfalso.
        apply (load_custom_shader_body_not_cancelled m w).
        rewrite Hrun. reflexivity.
      * intros [= <-]. cbn. eauto 10.
  - unfold load_custom_shader_variation. case_decide as Hname.
    + case_decide as Hin.
      * intros Hrun. exfalso.
        apply (load_custom_shader_variation_body_not_cancelled material_name w).
        rewrite Hrun. reflexivity.
      * intros [= <-]. cbn. split; [exact Hname |].
        split; [| auto]. destruct (materials w !! material_name) eqn:Hm; [| reflexivity].
        exfalso. apply Hin. eauto.
    + destruct (active_material w) as [m |].
      * intros Hrun. exfalso.
        apply (load_custom_shader_variation_body_not_cancelled m w).
        rewrite Hrun. reflexivity.
      * discriminate.
Qed.

(** Without a material name and without an active material the variation
    operator returns [FINISHED] and leaves the world as it is, while the
    shader operator cancels with an error report. *)
Theorem no_active_material (w : @World F) :
  active_material w = None ->
  load_custom_shader_variation py_float zero xml_parse "" w = (Ok FINISHED, w) /\
  fst (load_custom_shader xml_parse "" w) = Ok CANCELLED.
Proof.
  intros Hnone. unfold load_custom_shader_variation, load_custom_shader.
  rewrite !decide_False by (intros H; apply H; reflexivity).
  rewrite Hnone. split; reflexivity.
Qed.

(** *** [clear_shader] *)

Lemma cleared_idempotent (a : @I3DMaterialShader F) : cleared (cleared a) = cleared a.
Proof.
  unfold cleared. destruct a as [sh cs v vs ps ts]. cbn [shader variation].
  destruct (decide (sh = shader_custom)) as [-> | Hne].
  - rewrite decide_True by reflexivity. reflexivity.
  - cbn. reflexivity.
Qed.

Lemma materials_set_materials (ms : gmap string (@I3DMaterialShader F)) (w : @World F) :
  materials (set_materials ms w) = ms.
Proof. reflexivity. Qed.

Lemma set_materials_twice (ms ms' : gmap string (@I3DMaterialShader F)) (w : @World F) :
  set_materials ms' (set_materials ms w) = set_materials ms' w.
Proof. reflexivity. Qed.

(** What [clear_shader] does in every world: with an active material in
    [bpy.data.materials] it clears that material, otherwise it raises and
    changes nothing. *)
Lemma clear_shader_cases (w : @World F) :
  (exists m a, active_material w = Some m /\ materials w !! m = Some a /\
               clear_shader w = (Ok tt, set_materials (<[m := cleared a]> (materials w)) w)) \/
  (exists e, clear_shader w = (Raise e, w)).
Proof.
  destruct (active_material w) as [m |] eqn:Hactive.
  - destruct (materials w !! m) as [a |] eqn:Hm.
    + left. exists m, a. split; [reflexivity |]. split; [exact Hm |].
      apply clear_shader_run; assumption.
    + right. exists (KeyError m).
      unfold clear_shader, mbind, M_bind, m_bind, active_attributes.
      unfold active_material in Hactive.
      destruct (context_object w) as [[m' |] |]; try discriminate.
      injection Hactive as ->. unfold on. rewrite Hm. reflexivity.
  - right. unfold clear_shader, mbind, M_bind, m_bind, active_attributes.
    unfold active_material in Hactive.
    destruct (context_object w) as [[m' |] |]; try discriminate; eauto.
Qed.

(** Clearing twice is the same as clearing once. *)
Theorem clear_shader_idempotent (w : @World F) :
  clear_shader (snd (clear_shader w)) = clear_shader w.
Proof.
  destruct (clear_shader_cases w) as [(m & a & Hactive & Hm & Hrun) | (e & Hrun)];
    rewrite Hrun; cbn [snd]; [| exact Hrun].
  rewrite (clear_shader_run m (cleared a)).
  - rewrite materials_set_materials, set_materials_twice, insert_insert_eq,
      cleared_idempotent. reflexivity.
  - exact Hactive.
  - rewrite materials_set_materials. apply lookup_insert_eq.
Qed.

(** [clear_shader] never changes the selected variation of any material
    (its last conditional cannot fire), it leaves every material but the
    active one as it was, and it keeps a shader value ['Custom']. *)
Theorem clear_shader_keeps_variation (w : @World F) (m : string) :
  variation <$> (materials (snd (clear_shader w)) !! m) = variation <$> (materials w !! m) /\
  (active_material w <> Some m ->
   materials (snd (clear_shader w)) !! m = materials w !! m) /\
  (shader <$> (materials w !! m) = Some shader_custom ->
   shader <$> (materials (snd (clear_shader w)) !! m) = Some shader_custom).
Proof.
  destruct (clear_shader_cases w) as [(m' & a & Hactive & Hm & Hrun) | (e & Hrun)];
    rewrite Hrun; cbn [snd]; [| auto].
  rewrite materials_set_materials.
  destruct (decide (m' = m)) as [-> | Hne].
  - rewrite lookup_insert_eq, Hm. cbn. split; [reflexivity |].
    split; [intros H; contradiction |].
    intros [= Hshader]. rewrite decide_True by exact Hshader. rewrite Hshader. reflexivity.
  - rewrite lookup_insert_ne by exact Hne. auto.
Qed.

(** *** The variation operator *)







Lemma scan_parameters_raises (ps : list Element) (bad : Element) (e : exn) :
  bad ∈ ps -> parameter_element_as_dict bad = Raise e ->
  forall grouped, exists e', scan_parameters grouped ps = Raise e'.
Proof.
  intros Hin Hbad. induction ps as [| p rest IH]; intros grouped.
  - apply elem_of_nil in Hin. contradiction.
  - cbn. destruct (parameter_element_as_dict p) as [specs | e1] eqn:Hp; cbn.
    + apply elem_of_cons in Hin as [-> | Hin]; [congruence |]. apply IH, Hin.
    + eauto.
Qed.

(** One parameter entry that cannot be parsed makes the variation operator
    raise, whatever its group and whatever the selected variation: the
    entries of all groups are parsed before any group is selected. *)
Theorem malformed_entry_aborts_load
    (material_name m : string) (a : @I3DMaterialShader F) (root bad : Element)
    (e : exn) (w : @World F) :
  acts_on material_name w m ->
  materials w !! m = Some a ->
  xml_parse (shader_path (data_path w) a) = Some root ->
  bad ∈ entries root "Parameters" ->
  parameter_element_as_dict bad = Raise e ->
  exists e',
    fst (load_custom_shader_variation py_float zero xml_parse material_name w) = Raise e' /\
    grouped_parameters root = Raise e'.
Proof.
  intros Htarget Hm Hparse Hin Hbad.
  rewrite (load_custom_shader_variation_target _ _ _ _ _ _ Htarget).
  rewrite (load_variation_body_parsed _ _ _ _ _ _ _ Hm Hparse). cbn [fst].
  rewrite load_variation_run.
  unfold entries in Hin. unfold grouped_parameters.
  destruct (find root "Parameters") as [ps |].
  - destruct (scan_parameters_raises _ _ _ Hin Hbad ∅) as [e' He'].
    rewrite He'. exists e'. split; reflexivity.
  - apply elem_of_nil in Hin. contradiction.
Qed.


(** *** From default tokens to what the panel shows *)

Lemma floats_Ok (tokens : list string) (data : list F) :
  floats py_float tokens = Ok data ->
  Forall2 (fun t d => py_float t = Some d) tokens data.
Proof.
  unfold floats. intros Hrun. apply for_each_Forall2 in Hrun.
  eapply Forall2_impl; [exact Hrun |]. intros t d. cbn.
  destruct (py_float t); [congruence | discriminate].
Qed.

Lemma floats_Raise (tokens : list string) (e : exn) :
  floats py_float tokens = Raise e ->
  exists tok, tok ∈ tokens /\ py_float tok = None /\ e = ValueError tok.
Proof.
  unfold floats. induction tokens as [| t rest IH]; cbn; [discriminate |].
  destruct (py_float t) as [d |] eqn:Ht; cbn.
  - destruct (for_each _ rest) as [ds | e']; cbn; [discriminate |].
    intros [= <-]. destruct (IH eq_refl) as (tok & Hin & Hnone & Heq).
    exists tok. split; [apply list_elem_of_further, Hin | auto].
  - intros [= <-]. exists t. split; [apply list_elem_of_here | auto].
Qed.

(** A spec derived from a descriptor entry has a known type and a default
    value of that type's arity. *)
Lemma derived_spec_arity (entry : Element) (specs : list ParameterSpec)
    (spec : ParameterSpec) :
  parameter_element_as_dict entry = Ok specs -> spec ∈ specs ->
  exists n, (p_type spec, n) ∈ declared_arity /\ py_len (p_default_value spec) = n.
Proof.
  intros Hrun Hin.
  destruct (parameter_spec_origin _ _ _ Hrun Hin) as (ty & default & _ & Hty & Hdv).
  destruct (type_length_of ty) as [n |] eqn:Htl.
  - exists n. rewrite Hty. pose proof (type_length_declared _ _ Htl) as Harity.
    split; [exact Harity |].
    apply (parse_default_length n default); [| exact Hdv].
    apply (declared_arity_type_length _ _ Harity).
  - rewrite parse_default_unassigned in Hdv. discriminate.
Qed.

(** For a spec derived from a descriptor entry, filling the property entry
    can only fail on a default token that [float] rejects, with the
    [ValueError] of the first such token's conversion: the index [data[0]]
    is always in range. *)
Theorem derived_entry_fails_only_on_float
    (entry : Element) (specs : list ParameterSpec) (spec : ParameterSpec) (e : exn) :
  parameter_element_as_dict entry = Ok specs -> spec ∈ specs ->
  parameter_entry py_float zero spec = Raise e ->
  exists tok, tok ∈ p_default_value spec /\ py_float tok = None /\ e = ValueError tok.
Proof.
  intros Hrun Hin. destruct (derived_spec_arity _ _ _ Hrun Hin) as (n & Harity & Hlen).
  destruct (declared_arity_type_length _ _ Harity) as [_ Hn].
  unfold parameter_entry.
  destruct (floats py_float (p_default_value spec)) as [data |] eqn:Hfloats;
    cbn [mbind result_bind].
  - repeat case_decide; try discriminate.
    apply floats_Ok, Forall2_length in Hfloats.
    destruct data as [| d0 data']; [| cbn; discriminate].
    unfold py_len in Hlen. cbn in Hfloats. lia.
  - intros [= <-]. apply floats_Raise. exact Hfloats.
Qed.

(** For a spec derived from a descriptor entry that was filled in, the row
    of the parameter panel shows exactly the converted default value: the
    single float of a [float] parameter, the vector of the type's arity
    otherwise; the entry carries the spec's name and type. *)
Theorem panel_shows_loaded_default
    (entry : Element) (specs : list ParameterSpec) (spec : ParameterSpec)
    (p : @I3DShaderParameter F) :
  parameter_element_as_dict entry = Ok specs -> spec ∈ specs ->
  parameter_entry py_float zero spec = Ok p ->
  sp_name p = p_name spec /\ sp_type p = p_type spec /\
  exists n data,
    (p_type spec, n) ∈ declared_arity /\
    floats py_float (p_default_value spec) = Ok data /\ py_len data = n /\
    (n = 1 -> exists d, data = [d] /\ drawn p = Scalar d) /\
    (n <> 1 -> drawn p = Vector data).
Proof.
  intros Hrun Hin. destruct (derived_spec_arity _ _ _ Hrun Hin) as (n & Harity & Hlen).
  unfold parameter_entry.
  destruct (floats py_float (p_default_value spec)) as [data |] eqn:Hfloats;
    cbn [mbind result_bind]; [| discriminate].
  assert (Hdata : py_len data = n).
  { apply floats_Ok, Forall2_length in Hfloats. unfold py_len in *. lia. }
  unfold declared_arity in Harity. rewrite !elem_of_cons, elem_of_nil in Harity.
  destruct Harity as [Har | [Har | [Har | [Har | []]]]];
    injection Har as Hty Hn; subst n; rewrite Hty; cbn -[drawn].
  - destruct data as [| d0 [| d1 data']]; unfold py_len in Hdata; cbn in Hdata; try lia.
    cbn -[drawn]. intros [= <-]. cbn -[drawn]. split; [reflexivity |]. split; [reflexivity |].
    exists 1, [d0].
    split; [apply list_elem_of_here |].
    split; [reflexivity |]. split; [reflexivity |].
    split; [intros _; exists d0; split; reflexivity | intros H; contradiction].
  - intros [= <-]. cbn -[drawn]. split; [reflexivity |]. split; [reflexivity |].
    exists 2, data.
    split; [apply list_elem_of_further, list_elem_of_here |].
    split; [reflexivity |]. split; [exact Hdata |].
    split; [discriminate | intros _; reflexivity].
  - intros [= <-]. cbn -[drawn]. split; [reflexivity |]. split; [reflexivity |].
    exists 3, data.
    split; [do 2 apply list_elem_of_further; apply list_elem_of_here |].
    split; [reflexivity |]. split; [exact Hdata |].
    split; [discriminate | intros _; reflexivity].
  - intros [= <-]. cbn -[drawn]. split; [reflexivity |]. split; [reflexivity |].
    exists 4, data.
    split; [do 3 apply list_elem_of_further; apply list_elem_of_here |].
    split; [reflexivity |]. split; [exact Hdata |].
    split; [discriminate | intros _; reflexivity].
Qed.

(** *** Panels *)

Lemma collection_poll_active {X : Type} (collection : @I3DMaterialShader F -> list X)
    (m : string) (a : @I3DMaterialShader F) (w : @World F) :
  active_material w = Some m -> materials w !! m = Some a ->
  collection_poll collection w = (Ok (negb (bool_decide (collection a = []))), w).
Proof.
  intros Hactive Hm. unfold collection_poll, mbind, M_bind, m_bind, active_attributes.
  unfold active_material in Hactive.
  destruct (context_object w) as [[m' |] |]; try discriminate.
  injection Hactive as ->. rewrite (on_read _ _ _ _ Hm). reflexivity.
Qed.

(** The parameter and texture panels are hidden, without an exception,
    when there is no active material, and right after a [clear_shader]
    that went through. *)
Theorem panels_hidden (w : @World F) :
  (active_material w = None ->
   collection_poll shader_parameters w = (Ok false, w) /\
   collection_poll shader_textures w = (Ok false, w)) /\
  (fst (clear_shader w) = Ok tt ->
   collection_poll shader_parameters (snd (clear_shader w))
     = (Ok false, snd (clear_shader w)) /\
   collection_poll shader_textures (snd (clear_shader w))
     = (Ok false, snd (clear_shader w))).
Proof.
  split.
  - intros Hnone. unfold collection_poll, mbind, M_bind, m_bind, active_attributes.
    unfold active_material in Hnone.
    destruct (context_object w) as [[m' |] |]; try discriminate; split; reflexivity.
  - intros Hok.
    destruct (clear_shader_cases w) as [(m & a & Hactive & Hm & Hrun) | (e & Hrun)];
      rewrite Hrun in *; [| discriminate]. cbn [snd].
    assert (Hlookup : materials (set_materials (<[m := cleared a]> (materials w)) w) !! m
                      = Some (cleared a))
      by (rewrite materials_set_materials; apply lookup_insert_eq).
    assert (Hactive' : active_material (set_materials (<[m := cleared a]> (materials w)) w)
                       = Some m) by exact Hactive.
    split.
    + rewrite (collection_poll_active shader_parameters m (cleared a) _ Hactive' Hlookup).
      reflexivity.
    + rewrite (collection_poll_active shader_textures m (cleared a) _ Hactive' Hlookup).
      reflexivity.
Qed.

(** *** Migration helpers *)

Lemma apply_parameter_extract (p : @I3DShaderParameter F) (a : @I3DMaterialShader F) :
  apply_parameter zero (extract_parameter p) a = (Ok tt, push_parameters [restored zero p] a).
Proof.
  unfold apply_parameter, extract_parameter, restored, mbind, A_bind, param_set,
    push_parameters.
  destruct (decide (sp_type p = "float")) as [H1 | H1];
    [| destruct (decide (sp_type p = "float2")) as [H2 | H2];
       [| destruct (decide (sp_type p = "float3")) as [H3 | H3];
          [| destruct (decide (sp_type p = "float4")) as [H4 | H4]]]];
    cbn [pd_name pd_type pd_data_float_1 pd_data_float_2 pd_data_float_3 pd_data_float_4];
    run_attr; proj_fields; rewrite !alter_last_snoc.
  - rewrite decide_True by exact H1. run_attr. cbn [data_item].
    unfold a_modify. proj_fields. rewrite alter_last_snoc. reflexivity.
  - rewrite decide_False by exact H1. rewrite decide_True by exact H2. run_attr.
    cbn [data_item]. unfold a_modify. proj_fields. rewrite alter_last_snoc. reflexivity.
  - rewrite decide_False by exact H1. rewrite decide_False by exact H2.
    rewrite decide_True by exact H3. run_attr.
    cbn [data_item]. unfold a_modify. proj_fields. rewrite alter_last_snoc. reflexivity.
  - rewrite decide_False by exact H1. rewrite decide_False by exact H2.
    rewrite decide_False by exact H3. rewrite decide_True by exact H4. run_attr.
    cbn [data_item]. unfold a_modify. proj_fields. rewrite alter_last_snoc. reflexivity.
  - rewrite decide_False by exact H1. rewrite decide_False by exact H2.
    rewrite decide_False by exact H3. rewrite decide_False by exact H4. reflexivity.
Qed.

Lemma apply_parameters_extract (ps : list (@I3DShaderParameter F)) :
  forall a : @I3DMaterialShader F,
    for_ (apply_parameter zero) (map extract_parameter ps) a
    = (Ok tt, push_parameters (map (restored zero) ps) a).
Proof.
  induction ps as [| p rest IH]; intros a.
  - cbn. rewrite push_parameters_nil. reflexivity.
  - cbn [map]. rewrite for_cons, apply_parameter_extract, IH, push_parameters_app.
    reflexivity.
Qed.

Lemma apply_textures_extract (ts : list I3DShaderTexture) :
  forall a : @I3DMaterialShader F,
    for_ apply_texture
         (map (fun t => mkTextureData (st_name t) (source t) (default_source t)) ts) a
    = (Ok tt, push_textures ts a).
Proof.
  induction ts as [| t rest IH]; intros a.
  - cbn. rewrite push_textures_nil. reflexivity.
  - cbn [map]. rewrite for_cons.
    assert (Hone : apply_texture (mkTextureData (st_name t) (source t) (default_source t)) a
                   = (Ok tt, push_textures [t] a)).
    { unfold apply_texture, mbind, A_bind, tex_set, push_textures.
      run_attr. unfold a_modify. proj_fields. rewrite !alter_last_snoc.
      destruct t. reflexivity. }
    rewrite Hone, IH, push_textures_app. reflexivity.
Qed.

Lemma restored_entry (spec : ParameterSpec) (p : @I3DShaderParameter F) :
  parameter_entry py_float zero spec = Ok p -> restored zero p = p.
Proof.
  unfold parameter_entry.
  destruct (floats py_float (p_default_value spec)) as [data |]; cbn [mbind result_bind];
    [| discriminate].
  destruct (decide (p_type spec = "float")) as [H1 | H1];
    [| destruct (decide (p_type spec = "float2")) as [H2 | H2];
       [| destruct (decide (p_type spec = "float3")) as [H3 | H3];
          [| destruct (decide (p_type spec = "float4")) as [H4 | H4]]]].
  - destruct (py_index data 0) as [d0 |]; cbn [result_bind]; [| discriminate].
    intros [= <-]. unfold restored. cbn. rewrite decide_True by exact H1. reflexivity.
  - intros [= <-]. unfold restored. cbn. rewrite decide_False by exact H1.
    rewrite decide_True by exact H2. reflexivity.
  - intros [= <-]. unfold restored. cbn. rewrite decide_False by exact H1.
    rewrite decide_False by exact H2. rewrite decide_True by exact H3. reflexivity.
  - intros [= <-]. unfold restored. cbn. rewrite decide_False by exact H1.
    rewrite decide_False by exact H2. rewrite decide_False by exact H3.
    rewrite decide_True by exact H4. reflexivity.
  - intros [= <-]. unfold restored. cbn. rewrite decide_False by exact H1.
    rewrite decide_False by exact H2. rewrite decide_False by exact H3.
    rewrite decide_False by exact H4. reflexivity.
Qed.

(** Saving the textures of a material with [extract_textures_data] and
    applying them to a material whose texture collection is empty rebuilds
    them exactly, in order. *)
Theorem textures_survive_migration
    (m : string) (old a : @I3DMaterialShader F) (w : @World F) :
  materials w !! m = Some a ->
  shader_textures a = [] ->
  apply_textures_data m (extract_textures_data old) w =
    (Ok tt, set_materials (<[m := set_shader_textures (shader_textures old) a]> (materials w)) w).
Proof.
  intros Hm Hempty. unfold apply_textures_data, extract_textures_data.
  rewrite (on_run _ _ _ _ Hm), apply_textures_extract. cbn [fst snd].
  unfold push_textures. rewrite Hempty. reflexivity.
Qed.

(** Saving the parameters of a material with [extract_parameters_data] and
    applying them to a material whose parameter collection is empty prints
    the saved list and rebuilds, in order, each entry's name, type and the
    data field of its type, the other data fields returning to their
    defaults; entries made by the variation operator are rebuilt exactly. *)
Theorem parameters_survive_migration
    (m : string) (old a : @I3DMaterialShader F) (w : @World F) :
  materials w !! m = Some a ->
  shader_parameters a = [] ->
  apply_parameters_data zero render m (extract_parameters_data old) w =
    (Ok tt,
     mkWorld (<[m := set_shader_parameters (map (restored zero) (shader_parameters old)) a]>
                (materials w))
             (context_object w) (data_path w)
             (stdout w ++ [render _ (extract_parameters_data old)]) (reports w)) /\
  (forall specs,
      for_each (parameter_entry py_float zero) specs = Ok (shader_parameters old) ->
      map (restored zero) (shader_parameters old) = shader_parameters old).
Proof.
  intros Hm Hempty. split.
  - unfold apply_parameters_data, extract_parameters_data, mbind, M_bind, m_bind.
    unfold print at 1. cbv beta iota.
    erewrite on_run by exact Hm. rewrite apply_parameters_extract. cbn [fst snd].
    unfold push_parameters. rewrite Hempty. reflexivity.
  - intros specs Hmade. apply for_each_Forall2 in Hmade.
    induction Hmade as [| spec p specs' ps' Hp _ IH]; [reflexivity |].
    cbn [map]. rewrite (restored_entry _ _ Hp), IH. reflexivity.
Qed.

End OperatorFacts.

(** ** Sample runs of the further properties *)



Lemma no_active_material_witness :
  load_custom_shader_variation sample_float 0%nat sample_disk ""
    (world_of (stock_material "waving") None)
    = (Ok FINISHED, world_of (stock_material "waving") None) /\
  fst (load_custom_shader sample_disk "" (world_of (stock_material "waving") None))
    = Ok CANCELLED.
Proof.
  apply (no_active_material sample_float 0%nat sample_disk). reflexivity.
Defined.





Lemma malformed_entry_aborts_load_witness :
  exists e',
    fst (load_custom_shader_variation sample_float 0%nat
           (fun _ => Some malformed_descriptor) ""
           (world_of (stock_material "None") active)) = Raise e' /\
    grouped_parameters malformed_descriptor = Raise e'.
Proof.
  apply (malformed_entry_aborts_load sample_float 0%nat (fun _ => Some malformed_descriptor)
           "" "Mat" (stock_material "None") malformed_descriptor
           (node "Parameter" [("name", "tint"); ("type", "colour"); ("group", "unused")]
                 None [])
           (NameError "type_length")).
  - right. split; reflexivity.
  - reflexivity.
  - reflexivity.
  - apply list_elem_of_further, list_elem_of_here.
  - reflexivity.
Defined.


Lemma derived_entry_fails_only_on_float_witness :
  exists tok,
    tok ∈ ["1"; "x"] /\ sample_float tok = None /\ ValueError "x" = ValueError tok.
Proof.
  apply (derived_entry_fails_only_on_float sample_float 0%nat bad_float_parameter
           [mkParameterSpec "tint" "float2" ["1"; "x"]]
           (mkParameterSpec "tint" "float2" ["1"; "x"]) (ValueError "x")).
  - reflexivity.
  - apply list_elem_of_here.
  - reflexivity.
Defined.

Lemma panel_shows_loaded_default_witness :
  sp_name (mkShaderParameter "wave0" "float2" 0%nat [5; 6]%nat [0; 0; 0]%nat [0; 0; 0; 0]%nat)
    = "wave0" /\
  sp_type (mkShaderParameter "wave0" "float2" 0%nat [5; 6]%nat [0; 0; 0]%nat [0; 0; 0; 0]%nat)
    = "float2" /\
  exists n data,
    ("float2", n) ∈ declared_arity /\
    floats sample_float ["5"; "6"] = Ok data /\ py_len data = n /\
    (n = 1 -> exists d, data = [d] /\
       drawn (mkShaderParameter "wave0" "float2" 0%nat [5; 6]%nat [0; 0; 0]%nat
                                [0; 0; 0; 0]%nat) = Scalar d) /\
    (n <> 1 ->
       drawn (mkShaderParameter "wave0" "float2" 0%nat [5; 6]%nat [0; 0; 0]%nat
                                [0; 0; 0; 0]%nat) = Vector data).
Proof.
  apply (panel_shows_loaded_default sample_float 0%nat
           (node "Parameter" [("name", "wave"); ("type", "float2"); ("group", "extra");
                              ("arraySize", "2")] None
              [ node "Default" [("index", "0")] (Some "5 6") [];
                node "Default" [("index", "1")] (Some "7") [] ])
           [ mkParameterSpec "wave0" "float2" ["5"; "6"];
             mkParameterSpec "wave1" "float2" ["7"; "0"] ]
           (mkParameterSpec "wave0" "float2" ["5"; "6"])).
  - reflexivity.
  - apply list_elem_of_here.
  - reflexivity.
Defined.

Lemma textures_survive_migration_witness :
  apply_textures_data "Mat" (extract_textures_data loaded_material)
    (world_of (set_shader_textures [] loaded_material) active) =
    (Ok tt,
     set_materials
       (<["Mat" := set_shader_textures (shader_textures loaded_material)
                     (set_shader_textures [] loaded_material)]>
          (materials (world_of (set_shader_textures [] loaded_material) active)))
       (world_of (set_shader_textures [] loaded_material) active)).
Proof.
  apply (textures_survive_migration "Mat" loaded_material
           (set_shader_textures [] loaded_material)).
  - reflexivity.
  - reflexivity.
Defined.

Lemma parameters_survive_migration_witness :
  fst (apply_parameters_data 0%nat sample_render "Mat" (extract_parameters_data loaded_material)
         (world_of (set_shader_parameters [] loaded_material) active)) = Ok tt /\
  (shader_parameters <$>
     (materials (snd (apply_parameters_data 0%nat sample_render "Mat"
                        (extract_parameters_data loaded_material)
                        (world_of (set_shader_parameters [] loaded_material) active)))
        !! "Mat"))
  = Some (shader_parameters loaded_material).
Proof.
  destruct (parameters_survive_migration sample_float 0%nat sample_render "Mat"
              loaded_material (set_shader_parameters [] loaded_material)
              (world_of (set_shader_parameters [] loaded_material) active))
    as [Hrun Hexact].
  - reflexivity.
  - reflexivity.
  - rewrite Hrun. cbn [fst snd materials]. split; [reflexivity |].
    rewrite lookup_insert_eq. cbn.
    rewrite (Hexact [ mkParameterSpec "alpha" "float" ["1"];
                      mkParameterSpec "uv" "float4" ["1"; "2"; "0"; "0"];
                      mkParameterSpec "wave0" "float2" ["5"; "6"];
                      mkParameterSpec "wave1" "float2" ["7"; "0"] ]).
    + reflexivity.
    + vm_compute. reflexivity.
Defined.
